(** * cso2-master-server: rooms, the user gateway and the user manager

    A shallow embedding of [room/room.ts] (the [Room] class) and of
    [user/user.ts] (the [User] gateway class and the [UserManager] packet
    handlers), followed by the properties of the lobby specification that
    these sources decide.

    Conventions.
    - A TypeScript [number] that carries an identifier, a counter or a setting
      is a [Z]; an optional field ([x?: number]) is an [option Z], [None]
      standing for [undefined].
    - An object compared with [===] carries an [oid], its identity; two
      records are the same object exactly when they are equal.
    - A method that mutates [this] takes the old state and returns the new
      one; what it writes to sockets or sends to services is returned as a
      list of events, oldest first.
    - A call that would raise returns the completion [TypeError] (in the
      room), [Threw] (in a handler) or [None] (for the constructor).
    - A call of an asynchronous function without [await] parks what follows
      the callee's first [await]; the event loop resumes it later. *)

From Stdlib Require Import ZArith Lia Permutation.
From Stdlib.Init Require Import Byte.
From stdpp Require Import base list strings pretty gmap.

Open Scope Z_scope.

(** ** JavaScript idioms used by the sources *)
Module Js.

(** Truthiness of an optional number: [undefined] and [0] are falsy. *)
Definition truthy (x : option Z) : bool :=
  match x with
  | Some n => negb (n =? 0)
  | None => false
  end.

(** Truthiness of an optional string: [undefined] and [''] are falsy. *)
Definition truthyStr (x : option string) : bool :=
  match x with
  | Some s => negb (String.eqb s "")
  | None => false
  end.

(** [x ? x : d] for an optional number. *)
Definition cond (x : option Z) (d : Z) : Z :=
  if truthy x then default d x else d.

(** [x ? x : d] for an optional string. *)
Definition condStr (x : option string) (d : string) : string :=
  if truthyStr x then default d x else d.

(** [Array.prototype.indexOf]: the first index holding [x], or [-1]. *)
Fixpoint indexOf_from {A} `{EqDecision A} (x : A) (l : list A) (i : Z) : Z :=
  match l with
  | [] => -1
  | y :: l' => if decide (y = x) then i else indexOf_from x l' (i + 1)
  end.

Definition indexOf {A} `{EqDecision A} (x : A) (l : list A) : Z :=
  indexOf_from x l 0.

(** [Array.prototype.splice(start, 1)]: a negative [start] counts from the
    end, and the start is clamped to the array. *)
Definition splice1 {A} (start : Z) (l : list A) : list A :=
  let len := Z.of_nat (length l) in
  let s := if start <? 0 then Z.max (len + start) 0 else Z.min start len in
  delete (Z.to_nat s) l.

End Js.

(** ** [room/room.ts] *)
Module Room.

(** The part of a [User] that the room reads: its identity, its [userId]
    and the handle of its [socket]. *)
Record User := mkUser {
  oid : nat;
  userId : Z;
  socket : nat
}.

#[global] Instance User_eq_dec : EqDecision User.
Proof. solve_decision. Defined.

Module IRoomOptions.
Record t := mk {
  roomName : option string;
  gameModeId : option Z;
  mapId : option Z;
  winLimit : option Z;
  killLimit : option Z;
  startMoney : option Z;
  forceCamera : option Z;
  nextMapEnabled : option Z;
  changeTeams : option Z;
  enableBots : option Z;
  difficulty : option Z;
  respawnTime : option Z;
  teamBalance : option Z;
  weaponRestrictions : option Z;
  hltvEnabled : option Z
}.

(** The options record [{}]. *)
Definition empty : t :=
  mk None None None None None None None None None None None None None None None.
End IRoomOptions.

(** Handles of the parent channel and of the callback function. *)
Definition Channel := nat.
Definition Callback := nat.

Record Room := mkRoom {
  id : Z;
  roomName : string;
  maxPlayers : Z;
  gameModeId : Z;
  mapId : Z;
  winLimit : Z;
  killLimit : Z;
  startMoney : Z;
  forceCamera : Z;
  nextMapEnabled : Z;
  changeTeams : Z;
  enableBots : Z;
  difficulty : Z;
  respawnTime : Z;
  teamBalance : Z;
  weaponRestrictions : Z;
  hltvEnabled : Z;
  host : User;
  users : list User;
  emptyRoomCallback : option Callback;
  parentChannel : Channel
}.

(** [this.users = us] and [this.host = h]. *)
Definition set_users (us : list User) (r : Room) : Room :=
  mkRoom (id r) (roomName r) (maxPlayers r) (gameModeId r) (mapId r)
    (winLimit r) (killLimit r) (startMoney r) (forceCamera r)
    (nextMapEnabled r) (changeTeams r) (enableBots r) (difficulty r)
    (respawnTime r) (teamBalance r) (weaponRestrictions r) (hltvEnabled r)
    (host r) us (emptyRoomCallback r) (parentChannel r).

Definition set_host (h : User) (r : Room) : Room :=
  mkRoom (id r) (roomName r) (maxPlayers r) (gameModeId r) (mapId r)
    (winLimit r) (killLimit r) (startMoney r) (forceCamera r)
    (nextMapEnabled r) (changeTeams r) (enableBots r) (difficulty r)
    (respawnTime r) (teamBalance r) (weaponRestrictions r) (hltvEnabled r)
    h (users r) (emptyRoomCallback r) (parentChannel r).

(** Replies built by [OutRoomPacket]: the sequence byte taken from the
    socket and the payload. *)
Inductive OutRoomPacket :=
| playerLeave (seq : Z) (leaver : Z)
| setHost (seq : Z) (newHost : User).

Inductive Event :=
| SocketWrite (sock : nat) (reply : OutRoomPacket)
| EmptyRoomCallback (cb : Callback) (emptyRoom : Room) (channel : Channel).

Inductive Completion := Normal | TypeError.

(** Modelled from the spec: [ExtendedSocket.getSeq], which is not among the
    sources. The outbound sequence counter of a socket starts at 0, is
    handed out and then incremented, and wraps from 255 to 0. *)
Definition getSeq (sock : nat) (q : gmap nat Z) : Z * gmap nat Z :=
  let cur := default 0 (q !! sock) in
  (cur, <[sock := (cur + 1) mod 256]> q).

(** What a method leaves behind: the room, the sockets' sequence counters,
    the events it produced and how it completed. *)
Record Step := mkStep {
  room : Room;
  seqs : gmap nat Z;
  events : list Event;
  completion : Completion
}.

(** [addUser]: [this.users.push(user)]. *)
Definition addUser (user : User) (r : Room) : Room :=
  set_users (users r ++ [user]) r.

(** The constructor. [options] is dereferenced without a test, so a call
    without options raises. *)
Definition new (roomId : Z) (host : User) (parentChannel : Channel)
    (emptyRoomCallback : option Callback)
    (options : option IRoomOptions.t) : option Room :=
  match options with
  | None => None
  | Some o =>
      Some (addUser host
        {| id := roomId;
           host := host;
           parentChannel := parentChannel;
           emptyRoomCallback := emptyRoomCallback;
           roomName := Js.condStr (IRoomOptions.roomName o) ("Room #" +:+ pretty roomId);
           gameModeId := Js.cond (IRoomOptions.gameModeId o) 0;
           mapId := Js.cond (IRoomOptions.mapId o) 1;
           winLimit := Js.cond (IRoomOptions.winLimit o) 10;
           killLimit := Js.cond (IRoomOptions.killLimit o) 150;
           startMoney := Js.cond (IRoomOptions.startMoney o) 16000;
           forceCamera := Js.cond (IRoomOptions.forceCamera o) 1;
           nextMapEnabled := Js.cond (IRoomOptions.nextMapEnabled o) 0;
           changeTeams := Js.cond (IRoomOptions.changeTeams o) 0;
           enableBots := Js.cond (IRoomOptions.enableBots o) 0;
           difficulty := Js.cond (IRoomOptions.difficulty o) 0;
           maxPlayers := if Js.truthy (IRoomOptions.enableBots o) then 16 else 32;
           respawnTime := Js.cond (IRoomOptions.respawnTime o) 3;
           teamBalance := Js.cond (IRoomOptions.teamBalance o) 0;
           weaponRestrictions := Js.cond (IRoomOptions.weaponRestrictions o) 0;
           hltvEnabled := Js.cond (IRoomOptions.hltvEnabled o) 0;
           users := [] |})
  end.

Definition getFreeSlots (r : Room) : Z :=
  let availableSlots := maxPlayers r - Z.of_nat (length (users r)) in
  if availableSlots >=? 0 then availableSlots else 0.

Definition hasFreeSlots (r : Room) : bool :=
  negb (getFreeSlots r =? 0).

(** The loop shared by [sendRemovedUser] and [updateHost]: for each user,
    build a reply with the socket's next sequence byte and write it. *)
Fixpoint writeEach (mk : Z -> OutRoomPacket) (us : list User) (q : gmap nat Z)
    : gmap nat Z * list Event :=
  match us with
  | [] => (q, [])
  | user :: us' =>
      let '(s, q1) := getSeq (socket user) q in
      let '(q2, evs) := writeEach mk us' q1 in
      (q2, SocketWrite (socket user) (mk s) :: evs)
  end.

Definition sendRemovedUser (leaver : Z) (r : Room) (q : gmap nat Z)
    : gmap nat Z * list Event :=
  writeEach (fun s => playerLeave s leaver) (users r) q.

Definition updateHost (newHost : User) (r : Room) (q : gmap nat Z)
    : Room * gmap nat Z * list Event :=
  let r1 := set_host newHost r in
  let '(q1, evs) := writeEach (fun s => setHost s (host r1)) (users r1) q in
  (r1, q1, evs).

Definition findAndUpdateNewHost (r : Room) (q : gmap nat Z)
    : bool * (Room * gmap nat Z * list Event) :=
  match users r with
  | [] => (false, (r, q, []))
  | first :: _ => (true, updateHost first r q)
  end.

Definition onUserRemoved (leaver : Z) (r : Room) (q : gmap nat Z) : Step :=
  if bool_decide (length (users r) = 0%nat) then
    match emptyRoomCallback r with
    | Some cb => mkStep r q [EmptyRoomCallback cb r (parentChannel r)] Normal
    | None => mkStep r q [] TypeError
    end
  else
    let '(_, (r1, q1, evs1)) := findAndUpdateNewHost r q in
    let '(q2, evs2) := sendRemovedUser leaver r1 q1 in
    mkStep r1 q2 (evs1 ++ evs2) Normal.

(** [for (const user of this.users)] of [removeUser]: [it] is what is left
    to iterate; the body returns at the first match. *)
Fixpoint removeUser_for (it : list User) (targetUser : User) (r : Room)
    (q : gmap nat Z) : Step :=
  match it with
  | [] => mkStep r q [] Normal
  | user :: it' =>
      if decide (user = targetUser) then
        let leaver := userId user in
        let r1 := set_users (Js.splice1 (Js.indexOf user (users r)) (users r)) r in
        onUserRemoved leaver r1 q
      else removeUser_for it' targetUser r q
  end.

Definition removeUser (targetUser : User) (r : Room) (q : gmap nat Z) : Step :=
  removeUser_for (users r) targetUser r q.

Fixpoint removeUserById_for (it : list User) (leaver : Z) (r : Room)
    (q : gmap nat Z) : Step :=
  match it with
  | [] => mkStep r q [] Normal
  | user :: it' =>
      if decide (userId user = leaver) then
        let r1 := set_users (Js.splice1 (Js.indexOf user (users r)) (users r)) r in
        onUserRemoved leaver r1 q
      else removeUserById_for it' leaver r q
  end.

Definition removeUserById (leaver : Z) (r : Room) (q : gmap nat Z) : Step :=
  removeUserById_for (users r) leaver r q.

(** *** Vocabulary of the specification *)

(** The slot bound [0 <= users.length <= maxPlayers]. *)
Definition slot_bound (r : Room) : Prop :=
  0 <= Z.of_nat (length (users r)) <= maxPlayers r.

(** The member list without the first occurrence of [x]. *)
Fixpoint without_first (x : User) (l : list User) : list User :=
  match l with
  | [] => []
  | y :: l' => if decide (y = x) then l' else y :: without_first x l'
  end.

(** The member list without the first user whose id is [uid]. *)
Fixpoint without_first_id (uid : Z) (l : list User) : list User :=
  match l with
  | [] => []
  | y :: l' => if decide (userId y = uid) then l' else y :: without_first_id uid l'
  end.

(** The [setHost] and the [playerLeave] replies among some events, each
    with the socket it was written to, in order. *)
Definition setHost_writes (evs : list Event) : list (nat * User) :=
  omap (fun e => match e with
                 | SocketWrite s (setHost _ h) => Some (s, h)
                 | _ => None
                 end) evs.

Definition playerLeave_writes (evs : list Event) : list (nat * Z) :=
  omap (fun e => match e with
                 | SocketWrite s (playerLeave _ u) => Some (s, u)
                 | _ => None
                 end) evs.

(** The same for the room name: unspecified or empty takes the default. *)
Definition appliedStr (x : option string) (d got : string) : Prop :=
  match x with
  | None => got = d
  | Some s => (s <> "" -> got = s) /\ (s = "" -> got = d)
  end.

Definition callback_calls (evs : list Event) : list (Callback * Room * Channel) :=
  omap (fun e => match e with
                 | EmptyRoomCallback cb r c => Some (cb, r, c)
                 | _ => None
                 end) evs.

(** The rooms that the operations produce: a constructed room, and what
    [addUser] (called with free slots), [removeUser] and [removeUserById]
    make of such a room. *)
Inductive reachable : Room -> Prop :=
| reach_new roomId h ch cb o r :
    new roomId h ch cb o = Some r -> reachable r
| reach_addUser r user :
    reachable r -> hasFreeSlots r = true -> reachable (addUser user r)
| reach_removeUser r target q :
    reachable r -> reachable (room (removeUser target r q))
| reach_removeUserById r uid q :
    reachable r -> reachable (room (removeUserById uid r q)).

(** How the specification reads one option: an unspecified one takes the
    default [d]; a specified one, [claimed] says, is applied as given. *)
Definition claimed (x : option Z) (d got : Z) : Prop :=
  match x with
  | None => got = d
  | Some v => got = v
  end.

(** What the constructor does with one option: unspecified or zero takes
    the default, any other value is applied as given. *)
Definition applied (x : option Z) (d got : Z) : Prop :=
  match x with
  | None => got = d
  | Some v => (v <> 0 -> got = v) /\ (v = 0 -> got = d)
  end.

(** *** The room of the create, join and leave scenario *)

Definition alice : User := mkUser 1 101 11.
Definition bob : User := mkUser 2 102 12.
Definition carol : User := mkUser 3 103 13.
Definition dave : User := mkUser 4 104 14.

(** [new Room(1, alice, 0, cb5, {})]. *)
Definition room_of_alice : Room :=
  {| id := 1; roomName := "Room #1"; maxPlayers := 32; gameModeId := 0;
     mapId := 1; winLimit := 10; killLimit := 150; startMoney := 16000;
     forceCamera := 1; nextMapEnabled := 0; changeTeams := 0; enableBots := 0;
     difficulty := 0; respawnTime := 3; teamBalance := 0;
     weaponRestrictions := 0; hltvEnabled := 0;
     host := alice; users := [alice];
     emptyRoomCallback := Some 5%nat; parentChannel := 0%nat |}.

(** Alice's room once Bob and Carol have joined. *)
Definition room_of_three : Room :=
  addUser carol (addUser bob room_of_alice).

(** Options that specify [mapId: 0] and [forceCamera: 0]. *)
Definition options_with_zeros : IRoomOptions.t :=
  IRoomOptions.mk None None (Some 0) None None None (Some 0) None None None
    None None None None None.

End Room.

(** ** [user/user.ts]: the [User] class *)
Module User.

Record User := mkUser {
  userId : Z;
  userName : string;
  playerName : string;
  level : Z;
  avatar : Z;
  curExp : Z;
  maxExp : Z;
  rank : Z;
  vipLevel : Z;
  wins : Z;
  kills : Z;
  deaths : Z;
  assists : Z
}.

Definition isVip (u : User) : bool := negb (vipLevel u =? 0).

(** *** [userCache = new LRU({ max: 100, maxAge: 1000 * 15 })]

    The cache of the [lru-cache] package, most recently used entry first.
    An entry older than [maxAge] is dropped when it is read; a read of a
    live entry moves it to the front; a write puts the entry at the front
    and evicts from the back beyond [max] entries. *)
Record Entry := mkEntry {
  key : Z;
  value : User;
  stamp : Z
}.

Definition max : nat := 100.
Definition maxAge : Z := 1000 * 15.

Definition without_key (k : Z) (c : list Entry) : list Entry :=
  List.filter (fun e => negb (key e =? k)) c.

Definition lru_get (now k : Z) (c : list Entry) : option User * list Entry :=
  match List.find (fun e => key e =? k) c with
  | None => (None, c)
  | Some e =>
      if maxAge <? now - stamp e then (None, without_key k c)
      else (Some (value e), e :: without_key k c)
  end.

Definition lru_set (now k : Z) (v : User) (c : list Entry) : list Entry :=
  take max (mkEntry k v now :: without_key k c).

(** *** The user service as the gateway sees it *)

(** What [await superagent...] gives: a response, or a thrown error. *)
Inductive Outcome (B : Type) :=
| Response (status : Z) (body : B)
| Failure.
Arguments Response {B} status body.
Arguments Failure {B}.

(** The requests of the gateway, by endpoint. *)
Inductive Request :=
| PostUsers (username playername password : string)
| GetUsers (userId : Z)
| GetUsersByName (userName : string)
| PostUsersCheck (username password : string).

(** The state the class reads and writes, and what the user service
    answers: the clock, the module's [userCache], [UserSvcPing.isAlive()],
    and the outcome of each request. *)
Record Svc := mkSvc {
  now : Z;
  userCache : list Entry;
  isAlive : bool;
  post_users : string -> string -> string -> Outcome unit;
  get_users : Z -> Outcome User;
  get_users_byname : string -> Outcome User;
  post_users_check : string -> string -> Outcome Z
}.

Definition set_userCache (c : list Entry) (s : Svc) : Svc :=
  mkSvc (now s) c (isAlive s) (post_users s) (get_users s)
    (get_users_byname s) (post_users_check s).

Inductive Event :=
| Http (req : Request)
| ConsoleError
| CheckNow.

Definition create (username playername password : string) (s : Svc)
    : bool * list Event :=
  match post_users s username playername password with
  | Response status _ =>
      (status =? 200, [Http (PostUsers username playername password)])
  | Failure =>
      (false, [Http (PostUsers username playername password); ConsoleError; CheckNow])
  end.

Definition get (userId : Z) (s : Svc) : option User * Svc * list Event :=
  let '(session, c1) := lru_get (now s) userId (userCache s) in
  let s1 := set_userCache c1 s in
  match session with
  | Some session => (Some session, s1, [])
  | None =>
      if negb (isAlive s1) then (None, s1, [])
      else
        match get_users s1 userId with
        | Response status body =>
            if status =? 200 then
              let session := body in
              (Some session,
               set_userCache (lru_set (now s1) (User.userId session) session c1) s1,
               [Http (GetUsers userId)])
            else (None, s1, [Http (GetUsers userId)])
        | Failure => (None, s1, [Http (GetUsers userId); ConsoleError; CheckNow])
        end
  end.

Definition getByName (userName : string) (s : Svc) : option User * list Event :=
  if negb (isAlive s) then (None, [])
  else
    match get_users_byname s userName with
    | Response status body =>
        if status =? 200 then (Some body, [Http (GetUsersByName userName)])
        else (None, [Http (GetUsersByName userName)])
    | Failure => (None, [Http (GetUsersByName userName); ConsoleError; CheckNow])
    end.

(** *** A user service that is known down, with one user still cached *)

Definition alice : User :=
  mkUser 42 "alice" "playerAlice" 1 0 0 1000 0 0 0 0 0 0.

Definition svc_down : Svc :=
  {| now := 5000;
     userCache := [mkEntry 42 alice 0];
     isAlive := false;
     post_users := fun _ _ _ => Failure;
     get_users := fun _ => Failure;
     get_users_byname := fun _ => Failure;
     post_users_check := fun _ _ => Failure |}.

End User.

(** ** [user/user.ts]: the [UserManager] class *)
Module UserManager.

(** *** Collaborators that are not among the sources *)

(** Modelled from the spec: the [UserSession] record, "userId; userName;
    externalNet; currentChannelIndex; currentChannelServerIndex;
    currentRoomId (0 = none)". *)
Record UserSession := mkSession {
  userId : Z;
  userName : string;
  ipAddress : string;
  currentChannelIndex : Z;
  currentChannelServerIndex : Z;
  currentRoomId : Z
}.

(** Modelled from the spec: [UserSession.isInRoom], from "currentRoomId
    (0 = none)". *)
Definition isInRoom (s : UserSession) : bool := negb (currentRoomId s =? 0).

Definition set_ipAddress (ip : string) (s : UserSession) : UserSession :=
  mkSession (userId s) (userName s) ip (currentChannelIndex s)
    (currentChannelServerIndex s) (currentRoomId s).

(** The connection as a handler reads it: [uuid], [hasOwner()],
    [getOwner()] and [address().address]. *)
Record ExtendedSocket := mkSocket {
  uuid : nat;
  hasOwner : bool;
  getOwner : Z;
  address : string
}.

(** The inventory projections; their contents are the codec's business. *)
Record UserInventory := mkInventory { items : list Z }.

Record Cosmetics := mkCosmetics {
  ctItem : Z; terItem : Z; headItem : Z; gloveItem : Z;
  backItem : Z; stepsItem : Z; cardItem : Z; sprayItem : Z
}.

Definition Loadouts := list (list Z).
Definition BuyMenu := list (list Z).

(** Decoded incoming packets. *)
Record InLoginPacket := mkLogin {
  gameUsername : string;
  password : string
}.

Inductive HostPacketType :=
| OnGameEnd
| SetInventory
| SetLoadout
| SetBuyMenu
| OtherHostPacket (n : Z).

(** An [InHostPacket], with the [userId] that its [SetInventory],
    [SetLoadout] and [SetBuyMenu] decodings read. *)
Record InHostPacket := mkHostPacket {
  packetType : HostPacketType;
  targetUserId : Z
}.

(** Outgoing packets, by the builder that makes them. *)
Inductive OutPacket :=
| OutUserStart (userId : Z) (userName playerName : string) (holepunchPort : Z)
| OutUserInfo_fullUserUpdate (userId : Z)
| OutInventory_createInventory (items : list Z)
| OutFavorite_setCosmetics (ct ter head glove back steps card spray : Z)
| OutFavorite_setLoadout (loadouts : Loadouts)
| OutOption_setBuyMenu (buyMenu : BuyMenu)
| OutHost_setInventory (userId : Z) (items : list Z)
| OutHost_setLoadout (userId : Z) (loadouts : option Loadouts)
| OutHost_setBuyMenu (userId : Z) (buyMenu : option BuyMenu)
| OutChannelList.

(** Reads of the inventory service. *)
Inductive InventoryRead :=
| GetInventory (userId : Z)
| GetCosmetics (userId : Z)
| GetAllLoadouts (userId : Z)
| GetBuyMenu (userId : Z).

Inductive Level := Log | Warn | Error.

Inductive Event :=
| UserSvc (e : User.Event)
| InventorySvc (r : InventoryRead)
| Console (l : Level)
| Send (conn : nat) (p : OutPacket)
| SendBuffer (conn : nat) (b : list byte)
| End_ (conn : nat)
| SetOwner (conn : nat) (userId : Z)
| SessionUpdate (s : UserSession)
| EndGame (roomId : Z).

(** What a frame on the wire is: a packet or a raw buffer. *)
Inductive Frame :=
| Packet (p : OutPacket)
| Raw (b : list byte).

(** The server's state as the handlers see it: the user service and its
    gateway, and, as what they answer, the collaborators that are not among
    the sources: [UserSession.get], [ChannelManager.getChannel],
    [Channel.getRoomById] and the four reads of [UserInventory]. *)
Record World := mkWorld {
  svc : User.Svc;
  session_get : Z -> option UserSession;
  getChannel : Z -> Z -> option nat;
  getRoomById : nat -> Z -> option Room.Room;
  getInventory : Z -> option UserInventory;
  getCosmetics : Z -> option Cosmetics;
  getAllLoadouts : Z -> option Loadouts;
  getBuyMenu : Z -> option BuyMenu
}.

Definition set_svc (s : User.Svc) (w : World) : World :=
  mkWorld s (session_get w) (getChannel w) (getRoomById w) (getInventory w)
    (getCosmetics w) (getAllLoadouts w) (getBuyMenu w).

(** How a handler completes: it returns a boolean or raises. *)
Inductive Completion :=
| Returned (b : bool)
| Threw.

(** *** The class *)

Definition getSessionCurRoom (session : UserSession) (w : World)
    : option Room.Room :=
  match getChannel w (currentChannelIndex session)
                     (currentChannelServerIndex session) with
  | None => None
  | Some channel =>
      match getRoomById w channel (currentRoomId session) with
      | None => None
      | Some currentRoom => Some currentRoom
      end
  end.

Definition validateCredentials (username password : string) (s : User.Svc)
    : Z * list User.Event :=
  match User.post_users_check s username password with
  | User.Response status body_userId =>
      (if status =? 200 then body_userId else 0,
       [User.Http (User.PostUsersCheck username password)])
  | User.Failure =>
      (0, [User.Http (User.PostUsersCheck username password);
           User.ConsoleError; User.CheckNow])
  end.

(** Modelled from the spec: [UserSession.create], from "Creating a session
    requires successful validateCredentials": no session when the
    credentials give user id 0, else a session of that user, in no room. *)
Definition UserSession_create (username password : string) (s : User.Svc)
    : option UserSession * list User.Event :=
  let '(uid, evs) := validateCredentials username password s in
  (if uid =? 0 then None else Some (mkSession uid username "" 0 0 0), evs).

(** **** Sending to the host *)

Definition sendUserInventoryTo (hostUserId : Z) (hostConn : ExtendedSocket)
    (targetUserId : Z) (w : World) : Completion * list Event :=
  match getInventory w hostUserId with
  | None => (Threw, [InventorySvc (GetInventory hostUserId)])
  | Some inventory =>
      (Returned true,
       [InventorySvc (GetInventory hostUserId);
        Send (uuid hostConn) (OutHost_setInventory targetUserId (items inventory))])
  end.

(** Modelled from the spec: the builders [OutHostPacket.setLoadout] and
    [OutHostPacket.setBuyMenu] are asynchronous and take only the target's
    id; they "fetch the target's inventory projection" and hold what the
    service gave. *)
Definition sendUserLoadoutTo (hostConn : ExtendedSocket) (targetUserId : Z)
    (w : World) : list Event :=
  [InventorySvc (GetAllLoadouts targetUserId);
   Send (uuid hostConn) (OutHost_setLoadout targetUserId (getAllLoadouts w targetUserId))].

Definition sendUserBuyMenuTo (hostConn : ExtendedSocket) (targetUserId : Z)
    (w : World) : list Event :=
  [InventorySvc (GetBuyMenu targetUserId);
   Send (uuid hostConn) (OutHost_setBuyMenu targetUserId (getBuyMenu w targetUserId))].

(** **** The host packets *)

(** [currentRoom.settings.roomName], an argument of the log calls of the
    host handlers. The [Room] class keeps the name in [roomName] and has no
    [settings] field, so [currentRoom.settings] is [undefined] and reading
    its [roomName] raises: there is no value, and the statement that reads
    it does not complete. *)
Definition settings_roomName (currentRoom : Room.Room) : option string := None.

Definition onHostSetUserInventory (hostPacket : InHostPacket)
    (userConn : ExtendedSocket) (w : World) : Completion * list Event :=
  let preloadData_userId := targetUserId hostPacket in
  let requesterId := getOwner userConn in
  let requesterSession := session_get w requesterId in
  let targetSession := session_get w preloadData_userId in
  match requesterSession with
  | None => (Returned false, [Console Warn])
  | Some requesterSession =>
      if negb (isInRoom requesterSession) then (Returned false, [Console Warn])
      else
        match targetSession with
        | None => (Returned false, [Console Warn])
        | Some targetSession =>
            match getSessionCurRoom requesterSession w with
            | None => (Threw, [])
            | Some currentRoom =>
                if negb (Room.userId (Room.host currentRoom) =? requesterId) then
                  match settings_roomName currentRoom with
                  | None => (Threw, [])
                  | Some _ => (Returned false, [Console Warn])
                  end
                else
                  match sendUserInventoryTo (userId requesterSession) userConn
                          (userId targetSession) w with
                  | (Threw, evs) => (Threw, evs)
                  | (Returned _, evs) =>
                      match settings_roomName currentRoom with
                      | None => (Threw, evs)
                      | Some _ => (Returned true, evs ++ [Console Log])
                      end
                  end
            end
        end
  end.

Definition onHostSetUserLoadout (hostPacket : InHostPacket)
    (sourceConn : ExtendedSocket) (w : World) : Completion * list Event :=
  let loadoutData_userId := targetUserId hostPacket in
  let requesterId := getOwner sourceConn in
  let requesterSession := session_get w requesterId in
  let targetSession := session_get w loadoutData_userId in
  match requesterSession with
  | None => (Returned false, [Console Warn])
  | Some requesterSession =>
      if negb (isInRoom requesterSession) then (Returned false, [Console Warn])
      else
        match targetSession with
        | None => (Returned false, [Console Warn])
        | Some targetSession =>
            match getSessionCurRoom requesterSession w with
            | None => (Threw, [])
            | Some currentRoom =>
                if negb (Room.userId (Room.host currentRoom) =? userId requesterSession) then
                  match settings_roomName currentRoom with
                  | None => (Threw, [])
                  | Some _ => (Returned false, [Console Warn])
                  end
                else
                  let evs := sendUserLoadoutTo sourceConn (userId targetSession) w in
                  match settings_roomName currentRoom with
                  | None => (Threw, evs)
                  | Some _ => (Returned true, evs ++ [Console Log])
                  end
            end
        end
  end.

Definition onHostSetUserBuyMenu (hostPacket : InHostPacket)
    (sourceConn : ExtendedSocket) (w : World) : Completion * list Event :=
  let buyMenuData_userId := targetUserId hostPacket in
  let requesterId := getOwner sourceConn in
  let requesterSession := session_get w requesterId in
  let targetSession := session_get w buyMenuData_userId in
  match requesterSession with
  | None => (Returned false, [Console Warn])
  | Some requesterSession =>
      if negb (isInRoom requesterSession) then (Returned false, [Console Warn])
      else
        match targetSession with
        | None => (Returned false, [Console Warn])
        | Some targetSession =>
            match getSessionCurRoom requesterSession w with
            | None => (Threw, [])
            | Some currentRoom =>
                if negb (Room.userId (Room.host currentRoom) =? requesterId) then
                  match settings_roomName currentRoom with
                  | None => (Threw, [])
                  | Some _ => (Returned false, [Console Warn])
                  end
                else
                  let evs := sendUserBuyMenuTo sourceConn (userId targetSession) w in
                  match settings_roomName currentRoom with
                  | None => (Threw, evs)
                  | Some _ => (Returned true, evs ++ [Console Log])
                  end
            end
        end
  end.

(** The log call that precedes [currentRoom.endGame()] reads
    [currentRoom.settings.roomName]; a call of [endGame], which the [Room]
    class does not have either, would be recorded as [EndGame]. *)
Definition onHostGameEnd (userConn : ExtendedSocket) (w : World)
    : Completion * list Event :=
  match session_get w (getOwner userConn) with
  | None => (Returned false, [Console Warn])
  | Some session =>
      if negb (isInRoom session) then (Returned false, [Console Warn])
      else
        match getSessionCurRoom session w with
        | None => (Threw, [])
        | Some currentRoom =>
            match settings_roomName currentRoom with
            | None => (Threw, [])
            | Some _ => (Returned true, [Console Log; EndGame (Room.id currentRoom)])
            end
        end
  end.

Definition onHostPacket (hostPacket : InHostPacket) (connection : ExtendedSocket)
    (w : World) : Completion * World * list Event :=
  if negb (hasOwner connection) then (Returned false, w, [Console Warn])
  else
    let '(user, s1, evs0) := User.get (getOwner connection) (svc w) in
    let w1 := set_svc s1 w in
    let evs0 := map UserSvc evs0 in
    match user with
    | None => (Returned false, w1, evs0 ++ [Console Error])
    | Some _ =>
        let '(c, evs) :=
          match packetType hostPacket with
          | OnGameEnd => onHostGameEnd connection w1
          | SetInventory => onHostSetUserInventory hostPacket connection w1
          | SetLoadout => onHostSetUserLoadout hostPacket connection w1
          | SetBuyMenu => onHostSetUserBuyMenu hostPacket connection w1
          | OtherHostPacket _ => (Returned false, [Console Warn])
          end in
        (c, w1, evs0 ++ evs)
    end.

(** **** Login: calls that are not awaited

    [onLoginPacket] calls [sendUserInfoTo] and [sendInventory] without
    [await]. Such a call runs the callee up to its first [await] and
    returns; what follows the [await] runs later, once the caller has
    finished, in an order that depends on when the awaited values arrive.
    An [Async] is the body of an asynchronous function: events, and the
    points where it waits. *)
Inductive Async :=
| Finished
| Do (e : Event) (k : Async)
| Await (k : Async).

(** The events of a body up to its first [await], and what is parked. *)
Fixpoint start (t : Async) : list Event * option Async :=
  match t with
  | Finished => ([], None)
  | Do e k => let '(evs, parked) := start k in (e :: evs, parked)
  | Await k => ([], Some k)
  end.

(** The event loop: what happened so far and the parked continuations. *)
Record Loop := mkLoop {
  trace : list Event;
  pending : list Async
}.

(** A call without [await]. *)
Definition call (t : Async) (l : Loop) : Loop :=
  let '(evs, parked) := start t in
  mkLoop (trace l ++ evs) (pending l ++ from_option (fun k => [k]) [] parked).

(** The event loop resumes the [i]-th parked continuation. *)
Definition resume (i : nat) (l : Loop) : option Loop :=
  match pending l !! i with
  | None => None
  | Some k => Some (call k (mkLoop (trace l) (delete i (pending l))))
  end.

(** A schedule names the continuation to resume at each turn. *)
Fixpoint run (schedule : list nat) (l : Loop) : option Loop :=
  match schedule with
  | [] => Some l
  | i :: schedule' =>
      match resume i l with
      | None => None
      | Some l' => run schedule' l'
      end
  end.

(** The literal [unlockReply] of [sendInventory]. *)
Definition unlockReply : list byte :=
  [
    x55; x19; x5f; x05; x5a; x01; x4b; x00; x01; x00; x00;
    x00; x0b; x00; x00; x00; x01; xe8; x03; x00; x00; x09; x00; x00; x00; x0c; x00;
    x00; x00; x01; xdc; x05; x00; x00; x0a; x00; x00; x00; x0d; x00; x00; x00; x01;
    xe8; x03; x00; x00; x18; x00; x00; x00; x0e; x00; x00; x00; x01; xdc; x05; x00;
    x00; x0b; x00; x00; x00; x0f; x00; x00; x00; x01; x08; x07; x00; x00; x3c; x00;
    x00; x00; x10; x00; x00; x00; x01; x80; xbb; x00; x00; x1f; x00; x00; x00; x11;
    x00; x00; x00; x01; xc0; x5d; x00; x00; x11; x00; x00; x00; x12; x00; x00; x00;
    x01; x08; x07; x00; x00; x1c; x00; x00; x00; x13; x00; x00; x00; x01; x4c; x1d;
    x00; x00; x3b; x00; x00; x00; x14; x00; x00; x00; x01; x60; x61; x02; x00; x35;
    x00; x00; x00; x15; x00; x00; x00; x01; x30; x75; x00; x00; x1a; x00; x00; x00;
    x16; x00; x00; x00; x01; xa0; x0f; x00; x00; x19; x00; x00; x00; x17; x00; x00;
    x00; x01; x98; x3a; x00; x00; x3f; x00; x00; x00; x18; x00; x00; x00; x01; xe0;
    x93; x04; x00; x14; x00; x00; x00; x19; x00; x00; x00; x01; xa0; x0f; x00; x00;
    x07; x00; x00; x00; x1a; x00; x00; x00; x01; x98; x3a; x00; x00; x3e; x00; x00;
    x00; x1b; x00; x00; x00; x01; xe0; x93; x04; x00; x05; x00; x00; x00; x1c; x00;
    x00; x00; x01; x08; x07; x00; x00; x2c; x00; x00; x00; x1d; x00; x00; x00; x01;
    x30; x75; x00; x00; x10; x00; x00; x00; x1e; x00; x00; x00; x01; x88; x13; x00;
    x00; x0c; x00; x00; x00; x1f; x00; x00; x00; x01; x20; x4e; x00; x00; x16; x00;
    x00; x00; x20; x00; x00; x00; x01; x20; x4e; x00; x00; x34; x00; x00; x00; x43;
    x00; x00; x00; x01; x30; x75; x00; x00; x46; x00; x00; x00; x57; x00; x00; x00;
    x01; x20; xa1; x07; x00; x47; x00; x00; x00; x58; x00; x00; x00; x01; x20; xa1;
    x07; x00; x4d; x00; x00; x00; x59; x00; x00; x00; x00; x90; x01; x00; x00; x55;
    x00; x00; x00; x81; x00; x00; x00; x00; x70; x03; x00; x00; x30; x00; x00; x00;
    x90; x00; x00; x00; x01; x30; x75; x00; x00; x1d; x00; x00; x00; x91; x00; x00;
    x00; x01; x60; xea; x00; x00; x20; x00; x00; x00; x92; x00; x00; x00; x01; x48;
    xe8; x01; x00; x2f; x00; x00; x00; x93; x00; x00; x00; x01; x40; x0d; x03; x00;
    x6a; xbf; x00; x00; xa8; x00; x00; x00; x00; x28; x00; x00; x00; x70; xbf; x00;
    x00; xa9; x00; x00; x00; x00; x50; x00; x00; x00; x6f; xbf; x00; x00; xaa; x00;
    x00; x00; x00; x28; x00; x00; x00; x6e; xbf; x00; x00; xab; x00; x00; x00; x00;
    x50; x00; x00; x00; x69; xbf; x00; x00; xac; x00; x00; x00; x00; x28; x00; x00;
    x00; x72; xbf; x00; x00; xad; x00; x00; x00; x00; x50; x00; x00; x00; x6b; xbf;
    x00; x00; xae; x00; x00; x00; x00; x28; x00; x00; x00; x6d; xbf; x00; x00; xaf;
    x00; x00; x00; x00; x50; x00; x00; x00; x4a; x00; x00; x00; xd7; x00; x00; x00;
    x01; x50; xc3; x00; x00; x4b; x00; x00; x00; xd8; x00; x00; x00; x01; x00; x77;
    x01; x00; x4e; x00; x00; x00; xe8; x00; x00; x00; x01; x70; x11; x01; x00; x52;
    x00; x00; x00; xe9; x00; x00; x00; x01; xc0; xd4; x01; x00; x5b; x00; x00; x00;
    x06; x01; x00; x00; x01; xf0; x49; x02; x00; x5f; x00; x00; x00; x19; x01; x00;
    x00; x01; x60; xea; x00; x00; x60; x00; x00; x00; x1a; x01; x00; x00; x01; xc0;
    xd4; x01; x00; x64; x00; x00; x00; x38; x01; x00; x00; x01; xf0; x49; x02; x00;
    x68; x00; x00; x00; x5c; x01; x00; x00; x01; x20; xa1; x07; x00; x6d; x00; x00;
    x00; x82; x01; x00; x00; x01; xa0; x86; x01; x00; x6c; x00; x00; x00; x83; x01;
    x00; x00; x01; xa0; x86; x01; x00; x6e; x00; x00; x00; x84; x01; x00; x00; x01;
    xa0; x86; x01; x00; x42; x00; x00; x00; xfa; x01; x00; x00; x01; x30; x75; x00;
    x00; x43; x00; x00; x00; xfb; x01; x00; x00; x01; x50; xc3; x00; x00; x78; x00;
    x00; x00; xfc; x01; x00; x00; x01; x40; x0d; x03; x00; x79; x00; x00; x00; x07;
    x02; x00; x00; x00; xa0; x00; x00; x00; x7c; x00; x00; x00; x08; x02; x00; x00;
    x00; x04; x01; x00; x00; x7a; x00; x00; x00; x09; x02; x00; x00; x00; xe0; x01;
    x00; x00; x7b; x00; x00; x00; x0a; x02; x00; x00; x00; x44; x02; x00; x00; x7d;
    x00; x00; x00; x58; x02; x00; x00; x00; x44; x02; x00; x00; x7e; x00; x00; x00;
    x59; x02; x00; x00; x00; x0c; x03; x00; x00; x81; x00; x00; x00; x91; x02; x00;
    x00; x01; xf0; x49; x02; x00; x82; x00; x00; x00; x92; x02; x00; x00; x01; x00;
    x53; x07; x00; x83; x00; x00; x00; x93; x02; x00; x00; x01; x60; x5b; x03; x00;
    x85; x00; x00; x00; x94; x02; x00; x00; x00; x40; x01; x00; x00; x84; x00; x00;
    x00; x95; x02; x00; x00; x00; x08; x02; x00; x00; x87; x00; x00; x00; x1f; x03;
    x00; x00; x00; x08; x02; x00; x00; x8a; x00; x00; x00; xa4; x03; x00; x00; x01;
    xe0; x93; x04; x00; x8f; x00; x00; x00; x44; x04; x00; x00; x01; x80; xa9; x03;
    x00; x90; x00; x00; x00; x45; x04; x00; x00; x01; x40; x7e; x05; x00; x91; x00;
    x00; x00; x46; x04; x00; x00; x01; x00; x53; x07; x00; x9b; x00; x00; x00; xa9;
    x04; x00; x00; x01; xf0; x49; x02; x00; x9c; x00; x00; x00; xaa; x04; x00; x00;
    x01; x40; x0d; x03; x00; x97; x00; x00; x00; xfc; x04; x00; x00; x01; x42; x99;
    x00; x00; x98; x00; x00; x00; xfd; x04; x00; x00; x01; x86; x29; x02; x00; x99;
    x00; x00; x00; xfe; x04; x00; x00; x01; x8c; xed; x02; x00; x10; x00; x03; x00;
    x00; x00; x10; x00; x00; x00; x03; x00; x00; x00; x00; x00; x00; x00; x00; x00;
    x42; x00; x00; x00; x43; x00; x00; x00; x06; x00; x00; x00; x00; x00; x00; x00;
    x00; x00; x0e; x00; x00; x00; x14; x00; x00; x00; x03; x00; x00; x00; x00; x00;
    x00; x00; x00; x00; x0f; x00; x00; x00; x0a; x00; x00; x00; x04; x00; x00; x00;
    x00; x00; x00; x00; x00; x00; x10; x00; x00; x00; x16; x00; x00; x00; x07; x00;
    x00; x00; x00; x00; x00; x00; x00; x00; x10; x00; x00; x00; x0c; x00; x00; x00;
    x07; x00; x00; x00; x00; x00; x00; x00; x00; x00; x11; x00; x00; x00; x1c; x00;
    x00; x00; x05; x00; x00; x00; x00; x00; x00; x00; x00; x00; x11; x00; x00; x00;
    x35; x00; x00; x00; x01; x00; x00; x00; x00; x00; x00; x00; x00; x00; x12; x00;
    x00; x00; x34; x00; x00; x00; x01; x00; x00; x00; x00; x00; x00; x00; x00; x00;
    x13; x00; x00; x00; x4d; x00; x00; x00; x02; x00; x00; x00; x00; x00; x00; x00;
    x00; x00; x13; x00; x00; x00; x05; x00; x00; x00; x02; x00; x00; x00; x00; x00;
    x00; x00; x00; x00; x14; x00; x00; x00; x07; x00; x00; x00; x08; x00; x00; x00;
    x00; x00; x00; x00; x00; x00; x14; x00; x00; x00; x3e; x00; x00; x00; x08; x00;
    x00; x00; x00; x00; x00; x00; x00; x00; x15; x00; x00; x00; x11; x00; x00; x00;
    x00; x00; x00; x00; x00; x00; x00; x00; x00; x00; x1a; x00; x00; x00; x3f; x00;
    x00; x00; x1a; x00; x00; x00; x00; x00; x00; x00; x00; x00; x1a; x00; x00; x00;
    x19; x00; x00; x00; x1a; x00; x00; x00; x00; x00; x00; x00; x00; x00; x19; x00;
    x01; x00; x00; x00; x02; x00; x00; x00; x03; x00; x00; x00; x05; x00; x00; x00;
    x06; x00; x00; x00; x07; x00; x00; x00; x09; x00; x00; x00; x0a; x00; x00; x00;
    x0b; x00; x00; x00; x0d; x00; x00; x00; x0e; x00; x00; x00; x0f; x00; x00; x00;
    x10; x00; x00; x00; x11; x00; x00; x00; x12; x00; x00; x00; x13; x00; x00; x00;
    x14; x00; x00; x00; x15; x00; x00; x00; x18; x00; x00; x00; x19; x00; x00; x00;
    x1a; x00; x00; x00; x1c; x00; x00; x00; x6c; xbf; x00; x00; x71; xbf; x00; x00;
    x42; x00; x00; x00; x94; x01; x00; x00
  ].

(** [OutUserInfoPacket.fullUserUpdate] is asynchronous and not among the
    sources; the packet it resolves to is [OutUserInfo_fullUserUpdate]. *)
Definition sendUserInfoTo (userId : Z) (userName playerName : string)
    (conn : ExtendedSocket) (holepunchPort : Z) : Async :=
  Do (Send (uuid conn) (OutUserStart userId userName playerName holepunchPort))
    (Await
      (Do (Send (uuid conn) (OutUserInfo_fullUserUpdate userId)) Finished)).

Definition sendInventory (userId : Z) (conn : ExtendedSocket) (w : World) : Async :=
  Do (InventorySvc (GetInventory userId))
 (Do (InventorySvc (GetCosmetics userId))
 (Do (InventorySvc (GetAllLoadouts userId))
 (Do (InventorySvc (GetBuyMenu userId))
 (Await
    match getInventory w userId, getCosmetics w userId,
          getAllLoadouts w userId, getBuyMenu w userId with
    | Some inventory, Some cosmetics, Some loadouts, Some buyMenu =>
        Do (Send (uuid conn) (OutInventory_createInventory (items inventory)))
       (Do (SendBuffer (uuid conn) unlockReply)
       (Do (Send (uuid conn)
              (OutFavorite_setCosmetics (ctItem cosmetics) (terItem cosmetics)
                 (headItem cosmetics) (gloveItem cosmetics) (backItem cosmetics)
                 (stepsItem cosmetics) (cardItem cosmetics) (sprayItem cosmetics)))
       (Do (Send (uuid conn) (OutFavorite_setLoadout loadouts))
       (Do (Send (uuid conn) (OutOption_setBuyMenu buyMenu))
        Finished))))
    | _, _, _, _ => Finished
    end)))).

(** Modelled from the spec: [ChannelManager.sendChannelListTo], from "then
    send ChannelList"; the call is synchronous. *)
Definition sendChannelListTo (conn : ExtendedSocket) : Async :=
  Do (Send (uuid conn) OutChannelList) Finished.

(** [onLoginPacket]: the boolean it returns, the world it leaves and the
    event loop at the moment it returns. *)
Definition onLoginPacket (loginPacket : InLoginPacket)
    (connection : ExtendedSocket) (holepunchPort : Z) (w : World)
    : bool * World * Loop :=
  let '(session, evs0) :=
    UserSession_create (gameUsername loginPacket) (password loginPacket) (svc w) in
  let evs0 := map UserSvc evs0 in
  match session with
  | None => (false, w, mkLoop (evs0 ++ [Console Warn; End_ (uuid connection)]) [])
  | Some session =>
      let session := set_ipAddress (address connection) session in
      let evs1 :=
        [Console Log; SessionUpdate session;
         SetOwner (uuid connection) (userId session)] in
      let '(user, s1, evs2) := User.get (userId session) (svc w) in
      let w1 := set_svc s1 w in
      let evs2 := map UserSvc evs2 in
      match user with
      | None =>
          (false, w1,
           mkLoop (evs0 ++ evs1 ++ evs2 ++ [Console Error; End_ (uuid connection)]) [])
      | Some user =>
          let l0 := mkLoop (evs0 ++ evs1 ++ evs2) [] in
          let l1 := call (sendUserInfoTo (userId session) (User.userName user)
                            (User.playerName user) connection holepunchPort) l0 in
          let l2 := call (sendInventory (userId session) connection w1) l1 in
          let l3 := call (sendChannelListTo connection) l2 in
          (true, w1, l3)
      end
  end.

(** *** Vocabulary of the specification *)

(** The frames sent on a connection, in order. *)
Definition wire (conn : nat) (evs : list Event) : list Frame :=
  omap (fun e => match e with
                 | Send c p => if decide (c = conn) then Some (Packet p) else None
                 | SendBuffer c b => if decide (c = conn) then Some (Raw b) else None
                 | _ => None
                 end) evs.

(** The reads of the inventory service among some events. *)
Definition inventory_reads (evs : list Event) : list InventoryRead :=
  omap (fun e => match e with InventorySvc r => Some r | _ => None end) evs.

(** The packets sent, to whatever connection. *)
Definition sent (evs : list Event) : list OutPacket :=
  omap (fun e => match e with Send _ p => Some p | _ => None end) evs.

(** The inventory frames of a login: all five when the four projections
    are there, none otherwise. *)
Definition inventory_frames (userId : Z) (w : World) : list Frame :=
  match getInventory w userId, getCosmetics w userId,
        getAllLoadouts w userId, getBuyMenu w userId with
  | Some inventory, Some cosmetics, Some loadouts, Some buyMenu =>
      [Packet (OutInventory_createInventory (items inventory));
       Raw unlockReply;
       Packet (OutFavorite_setCosmetics (ctItem cosmetics) (terItem cosmetics)
                 (headItem cosmetics) (gloveItem cosmetics) (backItem cosmetics)
                 (stepsItem cosmetics) (cardItem cosmetics) (sprayItem cosmetics));
       Packet (OutFavorite_setLoadout loadouts);
       Packet (OutOption_setBuyMenu buyMenu)]
  | _, _, _, _ => []
  end.

(** The conditions (a) to (d) of the authorization chain: the requester has
    a session, is in a room, the target has a session, and the requester is
    the host of the room its session names. *)
Definition authorized (requesterId targetId : Z) (w : World) : Prop :=
  exists requesterSession targetSession currentRoom,
    session_get w requesterId = Some requesterSession /\
    isInRoom requesterSession = true /\
    session_get w targetId = Some targetSession /\
    getSessionCurRoom requesterSession w = Some currentRoom /\
    Room.userId (Room.host currentRoom) = requesterId.

(** Condition (e): the target is a member of the requester's room. *)
Definition target_in_room (requesterId targetId : Z) (w : World) : Prop :=
  exists requesterSession currentRoom member,
    session_get w requesterId = Some requesterSession /\
    getSessionCurRoom requesterSession w = Some currentRoom /\
    member ∈ Room.users currentRoom /\
    Room.userId member = targetId.

(** One of the conditions (a) to (d) is seen to fail. *)
Definition refused (requesterId targetId : Z) (w : World) : Prop :=
  session_get w requesterId = None \/
  (exists s, session_get w requesterId = Some s /\ isInRoom s = false) \/
  session_get w targetId = None \/
  (exists s currentRoom,
      session_get w requesterId = Some s /\
      getSessionCurRoom s w = Some currentRoom /\
      Room.userId (Room.host currentRoom) <> requesterId).

(** One of the conditions (a) to (c) fails: the requester has no session
    or is in no room, or the target has no session. *)
Definition turned_away (requesterId targetId : Z) (w : World) : Prop :=
  session_get w requesterId = None \/
  (exists s, session_get w requesterId = Some s /\ isInRoom s = false) \/
  session_get w targetId = None.

(** A handler that completed with [c] after the events [evs] kept the
    guard: it read the inventory service or sent a packet only under (a) to
    (d); where one of them was seen to fail it read nothing and sent
    nothing; and where one of (a) to (c) failed it returned [false]. *)
Definition relay_guarded (requesterId targetId : Z) (w : World)
    (c : Completion) (evs : list Event) : Prop :=
  (inventory_reads evs <> [] \/ sent evs <> [] -> authorized requesterId targetId w) /\
  (refused requesterId targetId w -> inventory_reads evs = [] /\ sent evs = []) /\
  (turned_away requesterId targetId w -> c = Returned false).

(** The session registry is keyed by user id. *)
Definition keyed (w : World) : Prop :=
  forall uid s, session_get w uid = Some s -> userId s = uid.

Definition is_host_relay (t : HostPacketType) : bool :=
  match t with
  | SetInventory | SetLoadout | SetBuyMenu => true
  | _ => false
  end.

(** *** A lobby: Alice hosts room 1 with Bob and Carol; Dave is logged in
    but in no room *)

Definition svc_up : User.Svc :=
  {| User.now := 0;
     User.userCache := [];
     User.isAlive := true;
     User.post_users := fun _ _ _ => User.Response 200 ();
     User.get_users := fun uid =>
       if uid =? 42 then User.Response 200 User.alice
       else if ((101 <=? uid) && (uid <=? 104))%bool then
         User.Response 200 (User.mkUser uid "member" "Member" 1 0 0 1000 0 0 0 0 0 0)
       else User.Failure;
     User.get_users_byname := fun _ => User.Failure;
     User.post_users_check := fun username password =>
       if (String.eqb username "alice" && String.eqb password "pw")%bool
       then User.Response 200 42 else User.Failure |}.

Definition lobby : World :=
  {| svc := svc_up;
     session_get := fun uid =>
       if uid =? 101 then Some (mkSession 101 "alice" "10.0.0.1" 0 0 1)
       else if uid =? 102 then Some (mkSession 102 "bob" "10.0.0.2" 0 0 1)
       else if uid =? 103 then Some (mkSession 103 "carol" "10.0.0.3" 0 0 1)
       else if uid =? 104 then Some (mkSession 104 "dave" "10.0.0.4" 0 0 0)
       else None;
     getChannel := fun channelIndex channelServerIndex =>
       if ((channelIndex =? 0) && (channelServerIndex =? 0))%bool
       then Some 0%nat else None;
     getRoomById := fun _ roomId =>
       if roomId =? 1 then Some Room.room_of_three else None;
     getInventory := fun uid =>
       if uid =? 101 then Some (mkInventory [1; 2])
       else if uid =? 102 then Some (mkInventory [3])
       else if uid =? 42 then Some (mkInventory [7; 8; 9])
       else None;
     getCosmetics := fun uid => Some (mkCosmetics 1 2 3 4 5 6 7 8);
     getAllLoadouts := fun uid => Some [[uid; 10]; [uid; 20]];
     getBuyMenu := fun uid => Some [[uid; 30]] |}.

(** The same lobby when the inventory service has no cosmetics to give. *)
Definition lobby_without_cosmetics : World :=
  mkWorld (svc lobby) (session_get lobby) (getChannel lobby) (getRoomById lobby)
    (getInventory lobby) (fun _ => None) (getAllLoadouts lobby) (getBuyMenu lobby).

(** Alice's connection once she owns it, and a fresh connection. *)
Definition conn_of_alice : ExtendedSocket := mkSocket 11 true 101 "10.0.0.1".
Definition conn_fresh : ExtendedSocket := mkSocket 20 false 0 "10.0.0.9".

Definition login_alice : InLoginPacket := mkLogin "alice" "pw".

End UserManager.

(** ** More vocabulary for the room *)
Module RoomShape.
Import Room.

(** The host is the member at index 0. *)
Definition host_first (r : Room) : Prop :=
  users r !! 0%nat = Some (host r).

(** What a reply says, without its sequence byte. *)
Inductive Payload :=
| HostIs (h : User)
| HasLeft (uid : Z).

Definition payload (p : OutRoomPacket) : Payload :=
  match p with
  | playerLeave _ uid => HasLeft uid
  | setHost _ h => HostIs h
  end.

(** The socket writes among some events, in order: the socket and what the
    reply says. *)
Definition writes (evs : list Event) : list (nat * Payload) :=
  omap (fun e => match e with
                 | SocketWrite s p => Some (s, payload p)
                 | EmptyRoomCallback _ _ _ => None
                 end) evs.

(** A room whose four seats are taken. *)
Definition room_of_four_seats : Room :=
  {| id := 2; roomName := "Room #2"; maxPlayers := 4; gameModeId := 0;
     mapId := 1; winLimit := 10; killLimit := 150; startMoney := 16000;
     forceCamera := 1; nextMapEnabled := 0; changeTeams := 0; enableBots := 0;
     difficulty := 0; respawnTime := 3; teamBalance := 0;
     weaponRestrictions := 0; hltvEnabled := 0;
     host := alice; users := [alice; bob; carol; dave];
     emptyRoomCallback := None; parentChannel := 0%nat |}.

End RoomShape.

(** ** [user/user.ts]: the option and favorite packets of [UserManager] *)
Module InventoryWrites.
Import UserManager.

Inductive OptionPacketType :=
| OptionSetBuyMenu
| OtherOptionPacket (n : Z).

(** An [InOptionPacket], with the [buyMenu] that its [InOptionBuyMenu]
    decoding reads. *)
Record InOptionPacket := mkOptionPacket {
  optionType : OptionPacketType;
  buyMenu : BuyMenu
}.

Inductive FavoritePacketType :=
| FavoriteSetLoadout
| FavoriteSetCosmetics
| OtherFavoritePacket (n : Z).

(** An [InFavoritePacket], with what its [InFavoriteSetLoadout] decoding
    ([loadout], [weaponSlot], [itemId]) and its [InFavoriteSetCosmetics]
    decoding ([slot], [itemId]) read. *)
Record InFavoritePacket := mkFavoritePacket {
  favoriteType : FavoritePacketType;
  loadout : Z;
  weaponSlot : Z;
  loadoutItemId : Z;
  slot : Z;
  cosmeticItemId : Z
}.

(** The writes of [UserInventory], which is not among the sources; a call
    is recorded with its arguments. *)
Inductive InventoryWrite :=
| setBuyMenu (userId : Z) (buyMenu : BuyMenu)
| setLoadoutWeapon (userId loadoutNum slot itemId : Z)
| setCosmeticSlot (userId slot itemId : Z).

Inductive Effect :=
| Logged (l : Level)
| Written (wr : InventoryWrite).

(** The user whose inventory a write changes. *)
Definition written_user (wr : InventoryWrite) : Z :=
  match wr with
  | setBuyMenu uid _ => uid
  | setLoadoutWeapon uid _ _ _ => uid
  | setCosmeticSlot uid _ _ => uid
  end.

Definition inventory_writes (effs : list Effect) : list InventoryWrite :=
  omap (fun e => match e with Written wr => Some wr | Logged _ => None end) effs.

Definition onOptionSetBuyMenu (optPacket : InOptionPacket) (conn : ExtendedSocket)
    (w : World) : bool * list Effect :=
  match session_get w (getOwner conn) with
  | None => (false, [Logged Warn])
  | Some session =>
      (true, [Logged Log; Written (setBuyMenu (userId session) (buyMenu optPacket))])
  end.

Definition onOptionPacket (optPacket : InOptionPacket) (conn : ExtendedSocket)
    (w : World) : bool * list Effect :=
  if negb (hasOwner conn) then (false, [Logged Warn])
  else
    match optionType optPacket with
    | OptionSetBuyMenu => onOptionSetBuyMenu optPacket conn w
    | OtherOptionPacket _ => (false, [Logged Warn])
    end.

Definition onFavoriteSetLoadout (favPacket : InFavoritePacket)
    (sourceConn : ExtendedSocket) (w : World) : bool * list Effect :=
  match session_get w (getOwner sourceConn) with
  | None => (false, [Logged Warn])
  | Some session =>
      let loadoutNum := loadout favPacket in
      let slot := weaponSlot favPacket in
      let itemId := loadoutItemId favPacket in
      (true, [Logged Log;
              Written (setLoadoutWeapon (userId session) loadoutNum slot itemId)])
  end.

Definition onFavoriteSetCosmetics (favPacket : InFavoritePacket)
    (sourceConn : ExtendedSocket) (w : World) : bool * list Effect :=
  match session_get w (getOwner sourceConn) with
  | None => (false, [Logged Warn])
  | Some session =>
      let slot := slot favPacket in
      let itemId := cosmeticItemId favPacket in
      (true, [Logged Log; Written (setCosmeticSlot (userId session) slot itemId)])
  end.

Definition onFavoritePacket (favPacket : InFavoritePacket)
    (sourceConn : ExtendedSocket) (w : World) : bool * list Effect :=
  if negb (hasOwner sourceConn) then (false, [Logged Warn])
  else
    match favoriteType favPacket with
    | FavoriteSetLoadout => onFavoriteSetLoadout favPacket sourceConn w
    | FavoriteSetCosmetics => onFavoriteSetCosmetics favPacket sourceConn w
    | OtherFavoritePacket _ => (false, [Logged Warn])
    end.

End InventoryWrites.

(** ** More vocabulary for the user manager *)
Module ManagerShape.
Import UserManager.

(** Every packet and buffer among the events goes to connection [conn]. *)
Definition only_to (conn : nat) (evs : list Event) : Prop :=
  Forall (fun e => match e with
                   | Send c _ => c = conn
                   | SendBuffer c _ => c = conn
                   | _ => True
                   end) evs.

(** The connections that were ended. *)
Definition ended (evs : list Event) : list nat :=
  omap (fun e => match e with End_ c => Some c | _ => None end) evs.

(** The games that were ended, by room id. *)
Definition games_ended (evs : list Event) : list Z :=
  omap (fun e => match e with EndGame roomId => Some roomId | _ => None end) evs.

(** The four reads of a login. *)
Definition login_reads (userId : Z) : list InventoryRead :=
  [GetInventory userId; GetCosmetics userId; GetAllLoadouts userId; GetBuyMenu userId].

(** A lobby whose channel has lost room 1: the sessions still name it. *)
Definition lobby_without_room : World :=
  mkWorld (svc lobby) (session_get lobby) (getChannel lobby) (fun _ _ => None)
    (getInventory lobby) (getCosmetics lobby) (getAllLoadouts lobby) (getBuyMenu lobby).

End ManagerShape.

(** * Properties *)

(** ** The room *)
Section RoomFacts.
Import Room.

Implicit Types (r : Room) (q : gmap nat Z) (u user target : User).

(** *** Arrays *)

Lemma indexOf_from_found target (l : list User) (i : Z) :
  target ∈ l ->
  exists n : nat,
    Js.indexOf_from target l i = i + Z.of_nat n /\
    (n < length l)%nat /\
    delete n l = without_first target l.
Proof.
  revert i. induction l as [|y l IH]; intros i Hin.
  - inversion Hin.
  - cbn [Js.indexOf_from without_first]. destruct (decide (y = target)) as [->|Hne].
    + exists 0%nat. cbn. split; [lia|]. split; [lia|reflexivity].
    + assert (Hin' : target ∈ l).
      { apply elem_of_cons in Hin as [Heq|Hin']; [congruence|exact Hin']. }
      destruct (IH (i + 1) Hin') as (n & Hidx & Hlt & Hdel).
      exists (S n). split; [lia|]. split; [cbn; lia|].
      change (delete (S n) (y :: l)) with (y :: delete n l).
      rewrite Hdel. reflexivity.
Qed.

Lemma splice_indexOf target (l : list User) :
  target ∈ l ->
  Js.splice1 (Js.indexOf target l) l = without_first target l.
Proof.
  intros Hin. destruct (indexOf_from_found target l 0 Hin) as (n & Hidx & Hlt & Hdel).
  unfold Js.splice1, Js.indexOf. rewrite Hidx.
  destruct (0 + Z.of_nat n <? 0) eqn:Hneg; [lia|].
  replace (Z.to_nat (Z.min (0 + Z.of_nat n) (Z.of_nat (length l)))) with n by lia.
  exact Hdel.
Qed.

Lemma without_first_not_in target (l : list User) :
  target ∉ l -> without_first target l = l.
Proof.
  induction l as [|y l IH]; intros Hnin; [reflexivity|].
  cbn. destruct (decide (y = target)) as [->|Hne].
  - exfalso. apply Hnin. left.
  - f_equal. apply IH. intros Hin. apply Hnin. right. exact Hin.
Qed.

Lemma without_first_length target (l : list User) :
  (length (without_first target l) <= length l)%nat.
Proof.
  induction l as [|y l IH]; cbn; [lia|].
  destruct (decide (y = target)); cbn; lia.
Qed.

Lemma without_first_id_length uid (l : list User) :
  (length (without_first_id uid l) <= length l)%nat.
Proof.
  induction l as [|y l IH]; cbn; [lia|].
  destruct (decide (userId y = uid)); cbn; lia.
Qed.

(** The first user with a given id is removed as that id is. *)
Lemma without_first_of_find uid (l : list User) user :
  List.find (fun u => bool_decide (userId u = uid)) l = Some user ->
  user ∈ l /\ userId user = uid /\ without_first user l = without_first_id uid l.
Proof.
  induction l as [|y l IH]; cbn; [discriminate|].
  destruct (decide (userId y = uid)) as [Hy|Hy].
  - rewrite bool_decide_eq_true_2 by exact Hy. intros [= <-].
    split; [left|]. split; [exact Hy|]. destruct (decide (y = y)); [reflexivity|congruence].
  - rewrite bool_decide_eq_false_2 by exact Hy. intros Hfind.
    destruct (IH Hfind) as (Hin & Hid & Heq).
    split; [right; exact Hin|]. split; [exact Hid|].
    destruct (decide (y = user)) as [->|_]; [congruence|]. f_equal. exact Heq.
Qed.

Lemma find_none_without uid (l : list User) :
  List.find (fun u => bool_decide (userId u = uid)) l = None ->
  forall u, u ∈ l -> userId u <> uid.
Proof.
  induction l as [|y l IH]; cbn; intros Hfind u Hin.
  - inversion Hin.
  - destruct (decide (userId y = uid)) as [Hy|Hy].
    + rewrite bool_decide_eq_true_2 in Hfind by exact Hy. discriminate.
    + rewrite bool_decide_eq_false_2 in Hfind by exact Hy.
      apply elem_of_cons in Hin as [->|Hin]; [exact Hy|]. apply IH; assumption.
Qed.

(** *** The two removal loops *)

Lemma removeUser_for_unfold (it : list User) target r q :
  removeUser_for it target r q =
    if decide (target ∈ it) then
      onUserRemoved (userId target)
        (set_users (Js.splice1 (Js.indexOf target (users r)) (users r)) r) q
    else mkStep r q [] Normal.
Proof.
  induction it as [|y it IH]; cbn [removeUser_for].
  - destruct (decide (target ∈ [])) as [Hin|_]; [inversion Hin|reflexivity].
  - destruct (decide (y = target)) as [->|Hne].
    + destruct (decide (target ∈ target :: it)) as [_|Hnin]; [reflexivity|].
      exfalso. apply Hnin. left.
    + rewrite IH. destruct (decide (target ∈ it)) as [Hin|Hnin].
      * destruct (decide (target ∈ y :: it)) as [_|Hnin]; [reflexivity|].
        exfalso. apply Hnin. right. exact Hin.
      * destruct (decide (target ∈ y :: it)) as [Hin|_]; [|reflexivity].
        apply elem_of_cons in Hin as [Heq|Hin]; [congruence|contradiction].
Qed.

Lemma removeUser_member target r q :
  target ∈ users r ->
  removeUser target r q =
    onUserRemoved (userId target) (set_users (without_first target (users r)) r) q.
Proof.
  intros Hin. unfold removeUser. rewrite removeUser_for_unfold.
  destruct (decide (target ∈ users r)) as [_|Hnin]; [|contradiction].
  rewrite splice_indexOf by exact Hin. reflexivity.
Qed.

Lemma removeUser_stranger target r q :
  target ∉ users r -> removeUser target r q = mkStep r q [] Normal.
Proof.
  intros Hnin. unfold removeUser. rewrite removeUser_for_unfold.
  destruct (decide (target ∈ users r)); [contradiction|reflexivity].
Qed.

Lemma removeUserById_for_unfold (it : list User) uid r q :
  removeUserById_for it uid r q =
    match List.find (fun u => bool_decide (userId u = uid)) it with
    | Some user =>
        onUserRemoved uid
          (set_users (Js.splice1 (Js.indexOf user (users r)) (users r)) r) q
    | None => mkStep r q [] Normal
    end.
Proof.
  induction it as [|y it IH]; cbn [removeUserById_for List.find]; [reflexivity|].
  destruct (decide (userId y = uid)) as [Hy|Hy].
  - rewrite bool_decide_eq_true_2 by exact Hy. reflexivity.
  - rewrite bool_decide_eq_false_2 by exact Hy. exact IH.
Qed.

Lemma removeUserById_member uid r q user :
  List.find (fun u => bool_decide (userId u = uid)) (users r) = Some user ->
  removeUserById uid r q =
    onUserRemoved uid (set_users (without_first_id uid (users r)) r) q.
Proof.
  intros Hfind. unfold removeUserById. rewrite removeUserById_for_unfold, Hfind.
  destruct (without_first_of_find _ _ _ Hfind) as (Hin & _ & Heq).
  rewrite splice_indexOf by exact Hin. rewrite Heq. reflexivity.
Qed.

Lemma removeUserById_stranger uid r q :
  (forall u, u ∈ users r -> userId u <> uid) ->
  removeUserById uid r q = mkStep r q [] Normal.
Proof.
  intros Hnone. unfold removeUserById. rewrite removeUserById_for_unfold.
  destruct (List.find _ (users r)) as [user|] eqn:Hfind; [|reflexivity].
  destruct (without_first_of_find _ _ _ Hfind) as (Hin & Hid & _).
  exfalso. exact (Hnone user Hin Hid).
Qed.

Lemma removeUser_users target r q :
  users (room (removeUser target r q)) = without_first target (users r).
Proof.
  destruct (decide (target ∈ users r)) as [Hin|Hnin].
  - rewrite removeUser_member by exact Hin. unfold onUserRemoved. cbn [users set_users].
    case_bool_decide as Hlen.
    + destruct (emptyRoomCallback _); reflexivity.
    + unfold findAndUpdateNewHost. cbn [users set_users].
      destruct (without_first target (users r)) as [|first rest] eqn:Hrem; [done|].
      unfold updateHost, sendRemovedUser. cbn [users set_users set_host host].
      repeat (destruct (writeEach _ _ _)). reflexivity.
  - rewrite removeUser_stranger by exact Hnin. cbn.
    symmetry. apply without_first_not_in. exact Hnin.
Qed.

End RoomFacts.

Section RoomBroadcasts.
Import Room.

Implicit Types (r : Room) (q : gmap nat Z) (u user target : User).

Lemma writeEach_setHost_writes h (us : list User) q :
  setHost_writes (writeEach (fun s => setHost s h) us q).2
    = map (fun u => (socket u, h)) us
  /\ playerLeave_writes (writeEach (fun s => setHost s h) us q).2 = []
  /\ callback_calls (writeEach (fun s => setHost s h) us q).2 = [].
Proof.
  revert q. induction us as [|u us IH]; intros q; [done|].
  cbn [writeEach]. destruct (getSeq (socket u) q) as [s q1].
  specialize (IH q1). destruct (writeEach _ us q1) as [q2 evs].
  cbn in *. destruct IH as (-> & -> & ->). done.
Qed.

Lemma writeEach_playerLeave_writes leaver (us : list User) q :
  playerLeave_writes (writeEach (fun s => playerLeave s leaver) us q).2
    = map (fun u => (socket u, leaver)) us
  /\ setHost_writes (writeEach (fun s => playerLeave s leaver) us q).2 = []
  /\ callback_calls (writeEach (fun s => playerLeave s leaver) us q).2 = [].
Proof.
  revert q. induction us as [|u us IH]; intros q; [done|].
  cbn [writeEach]. destruct (getSeq (socket u) q) as [s q1].
  specialize (IH q1). destruct (writeEach _ us q1) as [q2 evs].
  cbn in *. destruct IH as (-> & -> & ->). done.
Qed.

Lemma onUserRemoved_empty leaver r q :
  users r = [] ->
  onUserRemoved leaver r q =
    match emptyRoomCallback r with
    | Some cb => mkStep r q [EmptyRoomCallback cb r (parentChannel r)] Normal
    | None => mkStep r q [] TypeError
    end.
Proof.
  intros Hus. unfold onUserRemoved. rewrite Hus. reflexivity.
Qed.

Lemma onUserRemoved_nonempty leaver r q first rest :
  users r = first :: rest ->
  let st := onUserRemoved leaver r q in
  room st = set_host first r /\
  setHost_writes (events st) = map (fun u => (socket u, first)) (users r) /\
  playerLeave_writes (events st) = map (fun u => (socket u, leaver)) (users r) /\
  callback_calls (events st) = [] /\
  completion st = Normal.
Proof.
  intros Hus. unfold onUserRemoved, findAndUpdateNewHost, updateHost, sendRemovedUser.
  rewrite Hus. rewrite bool_decide_eq_false_2 by done.
  change (users (set_host first r)) with (users r).
  change (host (set_host first r)) with first. rewrite Hus.
  pose proof (writeEach_setHost_writes first (first :: rest) q) as Hs.
  destruct (writeEach (fun s => setHost s first) (first :: rest) q) as [q1 evs1].
  change (users (set_host first r)) with (users r). rewrite Hus.
  pose proof (writeEach_playerLeave_writes leaver (first :: rest) q1) as Hp.
  destruct (writeEach (fun s => playerLeave s leaver) (first :: rest) q1) as [q2 evs2].
  cbv zeta. cbn [room events completion snd] in *.
  destruct Hs as (Hs1 & Hs2 & Hs3), Hp as (Hp1 & Hp2 & Hp3).
  unfold setHost_writes, playerLeave_writes, callback_calls in *.
  rewrite !omap_app, Hs1, Hs2, Hs3, Hp1, Hp2, Hp3.
  rewrite app_nil_r. done.
Qed.

Lemma onUserRemoved_keeps leaver r q :
  users (room (onUserRemoved leaver r q)) = users r /\
  maxPlayers (room (onUserRemoved leaver r q)) = maxPlayers r.
Proof.
  destruct (users r) as [|first rest] eqn:Hus.
  - rewrite onUserRemoved_empty by exact Hus.
    destruct (emptyRoomCallback r); cbn; rewrite Hus; done.
  - destruct (onUserRemoved_nonempty leaver r q first rest Hus) as (-> & _).
    cbn. rewrite Hus. done.
Qed.

Lemma removeUserById_users uid r q :
  users (room (removeUserById uid r q)) = without_first_id uid (users r) /\
  maxPlayers (room (removeUserById uid r q)) = maxPlayers r.
Proof.
  destruct (List.find (fun u => bool_decide (userId u = uid)) (users r)) as [user|] eqn:Hfind.
  - rewrite (removeUserById_member _ _ _ _ Hfind).
    destruct (onUserRemoved_keeps uid (set_users (without_first_id uid (users r)) r) q)
      as [-> ->]. done.
  - rewrite removeUserById_stranger by (apply find_none_without; exact Hfind).
    cbn. split; [|reflexivity].
    pose proof (find_none_without _ _ Hfind) as Hnone.
    clear Hfind. induction (users r) as [|y l IH]; [reflexivity|].
    cbn. destruct (decide (userId y = uid)) as [Hy|_].
    + exfalso. apply (Hnone y); [left|exact Hy].
    + f_equal. apply IH. intros u Hin. apply Hnone. right. exact Hin.
Qed.

Lemma removeUser_maxPlayers target r q :
  maxPlayers (room (removeUser target r q)) = maxPlayers r.
Proof.
  destruct (decide (target ∈ users r)) as [Hin|Hnin].
  - rewrite removeUser_member by exact Hin.
    destruct (onUserRemoved_keeps (userId target)
                (set_users (without_first target (users r)) r) q) as [_ ->]. done.
  - rewrite removeUser_stranger by exact Hnin. reflexivity.
Qed.

End RoomBroadcasts.

Section RoomClaims.
Import Room.

Implicit Types (r : Room) (q : gmap nat Z) (u user target : User).

Example new_room_of_alice :
  new 1 alice 0%nat (Some 5%nat) (Some IRoomOptions.empty) = Some room_of_alice.
Proof. reflexivity. Qed.

(** The create, join and leave scenario: when Alice leaves, Bob and Carol
    are told that Bob is the host and that user 101 left; when Bob and then
    Carol leave too, the callback is invoked. *)
Example alice_leaves :
  removeUser alice room_of_three ∅
  = mkStep (set_host bob (set_users [bob; carol] room_of_three))
      {[ 12%nat := 2; 13%nat := 2 ]}
      [SocketWrite 12 (setHost 0 bob); SocketWrite 13 (setHost 0 bob);
       SocketWrite 12 (playerLeave 1 101); SocketWrite 13 (playerLeave 1 101)]
      Normal.
Proof. apply eq_sym. vm_compute. reflexivity. Qed.

Example everybody_leaves :
  let st1 := removeUser alice room_of_three ∅ in
  let st2 := removeUser bob (room st1) (seqs st1) in
  let st3 := removeUserById 103 (room st2) (seqs st2) in
  host (room st2) = carol /\
  users (room st3) = [] /\
  callback_calls (events st3) = [(5%nat, room st3, 0%nat)].
Proof. repeat split. Qed.

Lemma applied_cond (x : option Z) (d : Z) : applied x d (Js.cond x d).
Proof.
  destruct x as [v|]; cbn; [|reflexivity].
  unfold Js.cond. cbn. destruct (Z.eqb_spec v 0) as [->|Hv]; cbn; split; congruence.
Qed.

(** C4, as stated, fails: an option specified as [0] is not applied when
    its default is not [0]. With [mapId: 0] the room gets map 1. *)
Lemma new_specified_zero_counterexample :
  exists r,
    new 1 alice 0%nat None (Some options_with_zeros) = Some r /\
    IRoomOptions.mapId options_with_zeros = Some 0 /\
    mapId r = 1 /\
    ~ claimed (IRoomOptions.mapId options_with_zeros) 1 (mapId r).
Proof.
  eexists. split; [reflexivity|]. split; [reflexivity|]. split; [reflexivity|].
  cbn. discriminate.
Qed.

(** C4, amended: for every options record passed to the constructor, an
    option that is unspecified or specified as [0] takes its listed default
    and an option specified with a non-zero value is applied as given;
    [maxPlayers] is 16 when the room's [enableBots] is non-zero and 32
    otherwise; the room name is the given non-empty name, and
    ['Room #' + roomId] when the name is unspecified or empty. *)
Theorem new_applies_options (roomId : Z) (h : User) (ch : Channel)
    (cb : option Callback) (o : IRoomOptions.t) :
  exists r,
    new roomId h ch cb (Some o) = Some r /\
    applied (IRoomOptions.gameModeId o) 0 (gameModeId r) /\
    applied (IRoomOptions.mapId o) 1 (mapId r) /\
    applied (IRoomOptions.winLimit o) 10 (winLimit r) /\
    applied (IRoomOptions.killLimit o) 150 (killLimit r) /\
    applied (IRoomOptions.startMoney o) 16000 (startMoney r) /\
    applied (IRoomOptions.forceCamera o) 1 (forceCamera r) /\
    applied (IRoomOptions.nextMapEnabled o) 0 (nextMapEnabled r) /\
    applied (IRoomOptions.changeTeams o) 0 (changeTeams r) /\
    applied (IRoomOptions.enableBots o) 0 (enableBots r) /\
    applied (IRoomOptions.difficulty o) 0 (difficulty r) /\
    applied (IRoomOptions.respawnTime o) 3 (respawnTime r) /\
    applied (IRoomOptions.teamBalance o) 0 (teamBalance r) /\
    applied (IRoomOptions.weaponRestrictions o) 0 (weaponRestrictions r) /\
    applied (IRoomOptions.hltvEnabled o) 0 (hltvEnabled r) /\
    maxPlayers r = (if decide (enableBots r = 0) then 32 else 16) /\
    appliedStr (IRoomOptions.roomName o) ("Room #" +:+ pretty roomId) (roomName r).
Proof.
  eexists. split; [reflexivity|]. cbn.
  repeat (split; [apply applied_cond|]). split.
  - destruct (IRoomOptions.enableBots o) as [v|]; cbn; [|reflexivity].
    unfold Js.cond. cbn. destruct (Z.eqb_spec v 0) as [->|Hv]; cbn; [reflexivity|].
    destruct (decide (v = 0)); [contradiction|reflexivity].
  - unfold appliedStr, Js.condStr, Js.truthyStr.
    destruct (IRoomOptions.roomName o) as [s|]; [|reflexivity].
    destruct (String.eqb_spec s "") as [->|Hs]; unfold default; cbn [negb from_option];
      split; intros; first [reflexivity | congruence].
Qed.

(** C6: every room produced by the constructor, by [addUser] called with
    free slots, by [removeUser] and by [removeUserById] satisfies
    [0 <= users.length <= maxPlayers]. *)
Theorem room_slot_bound r : reachable r -> slot_bound r.
Proof.
  induction 1 as [roomId h ch cb o r Hnew | r user _ IH Hfree
                 | r target q _ IH | r uid q _ IH]; unfold slot_bound in *.
  - destruct o as [o|]; [|discriminate]. injection Hnew as <-. cbn.
    destruct (Js.truthy _); lia.
  - unfold hasFreeSlots, getFreeSlots in Hfree. cbn. rewrite length_app. cbn.
    destruct (maxPlayers r - Z.of_nat (length (users r)) >=? 0) eqn:Hge;
      [|discriminate].
    apply negb_true_iff, Z.eqb_neq in Hfree. lia.
  - rewrite removeUser_users, removeUser_maxPlayers.
    pose proof (without_first_length target (users r)). lia.
  - destruct (removeUserById_users uid r q) as [-> ->].
    pose proof (without_first_id_length uid (users r)). lia.
Qed.

Lemma room_slot_bound_witness :
  slot_bound (room (removeUser bob (addUser bob room_of_alice) ∅)).
Proof.
  apply room_slot_bound. apply reach_removeUser. apply reach_addUser.
  - apply (reach_new 1 alice 0%nat (Some 5%nat) (Some IRoomOptions.empty)).
    reflexivity.
  - reflexivity.
Defined.

(** C5, as stated, fails: when Carol, who is not the host, leaves Alice's
    room, [setHost] is still written to Alice and to Bob. *)
Lemma removeUser_non_host_counterexample :
  carol <> host room_of_three /\
  host (room (removeUser carol room_of_three ∅)) = host room_of_three /\
  setHost_writes (events (removeUser carol room_of_three ∅))
    = [(socket alice, alice); (socket bob, alice)] /\
  setHost_writes (events (removeUser carol room_of_three ∅)) <> [].
Proof.
  split; [discriminate|]. split; [reflexivity|]. split; [reflexivity|].
  vm_compute. discriminate.
Qed.

Lemma elects_first leaver r q (remaining : list User) (h0 : User) :
  remaining <> [] ->
  let st := onUserRemoved leaver (set_users remaining r) q in
  users (room st) = remaining /\
  users (room st) !! 0%nat = Some (host (room st)) /\
  setHost_writes (events st)
    = map (fun u => (socket u, host (room st))) (users (room st)) /\
  playerLeave_writes (events st)
    = map (fun u => (socket u, leaver)) (users (room st)) /\
  callback_calls (events st) = [] /\
  (remaining !! 0%nat = Some h0 -> host (room st) = h0).
Proof.
  intros Hne. destruct remaining as [|first rest]; [done|].
  destruct (onUserRemoved_nonempty leaver (set_users (first :: rest) r) q first rest
              eq_refl) as (Hroom & Hs & Hp & Hc & _).
  cbv zeta. rewrite Hroom, Hs, Hp, Hc. cbn. repeat split; congruence.
Qed.

(** C5, amended: every removal that leaves the room non-empty makes the
    member at index 0 of the remaining list the host and writes [setHost]
    for that member to every remaining member, whether or not the removed
    user was the host; when the host was the first member and another user
    is removed, the host stays the same. *)
Theorem removal_elects_first_member r q :
  (forall target,
      target ∈ users r -> without_first target (users r) <> [] ->
      let st := removeUser target r q in
      users (room st) = without_first target (users r) /\
      users (room st) !! 0%nat = Some (host (room st)) /\
      setHost_writes (events st)
        = map (fun u => (socket u, host (room st))) (users (room st)) /\
      (users r !! 0%nat = Some (host r) -> target <> host r ->
       host (room st) = host r)) /\
  (forall uid,
      (exists u, u ∈ users r /\ userId u = uid) ->
      without_first_id uid (users r) <> [] ->
      let st := removeUserById uid r q in
      users (room st) = without_first_id uid (users r) /\
      users (room st) !! 0%nat = Some (host (room st)) /\
      setHost_writes (events st)
        = map (fun u => (socket u, host (room st))) (users (room st)) /\
      (users r !! 0%nat = Some (host r) -> userId (host r) <> uid ->
       host (room st) = host r)).
Proof.
  split.
  - intros target Hin Hne st. subst st. rewrite removeUser_member by exact Hin.
    destruct (elects_first (userId target) r q _ (host r) Hne)
      as (Hus & Hhd & Hs & _ & _ & Hsame).
    repeat split; try assumption.
    intros Hfirst Htarget. apply Hsame.
    destruct (users r) as [|h0 l]; [discriminate|]. cbn in Hfirst.
    injection Hfirst as ->. cbn. destruct (decide (host r = target)); [congruence|done].
  - intros uid (u & Hin & Hid) Hne st. subst st.
    destruct (List.find (fun u => bool_decide (userId u = uid)) (users r))
      as [user|] eqn:Hfind.
    2: { exfalso. exact (find_none_without _ _ Hfind u Hin Hid). }
    rewrite (removeUserById_member _ _ _ _ Hfind).
    destruct (elects_first uid r q _ (host r) Hne) as (Hus & Hhd & Hs & _ & _ & Hsame).
    repeat split; try assumption.
    intros Hfirst Hhost. apply Hsame.
    destruct (users r) as [|h0 l]; [discriminate|]. cbn in Hfirst.
    injection Hfirst as ->. cbn. destruct (decide (userId (host r) = uid)); [congruence|done].
Qed.

Lemma removal_elects_first_member_witness :
  host (room (removeUser alice room_of_three ∅)) = bob /\
  setHost_writes (events (removeUser alice room_of_three ∅))
    = [(socket bob, bob); (socket carol, bob)] /\
  host (room (removeUserById 103 room_of_three ∅)) = alice.
Proof.
  destruct (removal_elects_first_member room_of_three ∅) as [Hobj Hid].
  assert (Hin : alice ∈ users room_of_three) by (vm_compute; left).
  assert (Hne : without_first alice (users room_of_three) <> [])
    by (vm_compute; discriminate).
  destruct (Hobj alice Hin Hne) as (Hus & Hhd & Hs & _).
  assert (Hin' : exists u, u ∈ users room_of_three /\ userId u = 103)
    by (exists carol; split; [vm_compute; right; right; left|reflexivity]).
  assert (Hne' : without_first_id 103 (users room_of_three) <> [])
    by (vm_compute; discriminate).
  destruct (Hid 103 Hin' Hne') as (_ & _ & _ & Hsame).
  split; [|split].
  - rewrite Hus in Hhd.
    change (without_first alice (users room_of_three) !! 0%nat) with (Some bob) in Hhd.
    congruence.
  - rewrite Hs. reflexivity.
  - apply Hsame; [reflexivity|vm_compute; discriminate].
Defined.

(** C7, as stated, fails: the callback of the constructor is optional. In
    a room built without one, the removal of the last member invokes
    nothing: the call of the missing callback raises. *)
Lemma removeUser_without_callback_counterexample :
  exists r,
    new 3 alice 0%nat None (Some IRoomOptions.empty) = Some r /\
    users (room (removeUser alice r ∅)) = [] /\
    callback_calls (events (removeUser alice r ∅)) = [] /\
    completion (removeUser alice r ∅) = TypeError.
Proof. eexists. repeat split. Qed.

(** C7, amended: a [removeUser] call that removes the last member writes no
    [playerLeave], and when the room was given an [emptyRoomCallback] it
    invokes that callback with the room and its parent channel; a
    [removeUser] call that removes a member and leaves the room non-empty
    writes [playerLeave] with the removed user's id to every remaining
    member. *)
Theorem removeUser_last_or_leave target r q :
  target ∈ users r ->
  let st := removeUser target r q in
  users (room st) = without_first target (users r) /\
  (users (room st) = [] ->
   playerLeave_writes (events st) = [] /\
   forall cb, emptyRoomCallback r = Some cb ->
     events st = [EmptyRoomCallback cb (room st) (parentChannel r)]) /\
  (users (room st) <> [] ->
   playerLeave_writes (events st)
     = map (fun u => (socket u, userId target)) (users (room st)) /\
   callback_calls (events st) = []).
Proof.
  intros Hin st. subst st. split; [apply removeUser_users|].
  rewrite removeUser_member by exact Hin. split.
  - intros Hempty.
    destruct (onUserRemoved_keeps (userId target)
                (set_users (without_first target (users r)) r) q) as [Hkeep _].
    rewrite Hkeep in Hempty. cbn [users set_users] in Hempty.
    rewrite onUserRemoved_empty by (cbn [users set_users]; exact Hempty).
    cbn [emptyRoomCallback set_users].
    destruct (emptyRoomCallback r) as [cb0|]; cbn.
    + split; [reflexivity|]. intros cb [= <-]. reflexivity.
    + split; [reflexivity|]. intros cb [=].
  - intros Hne.
    destruct (onUserRemoved_keeps (userId target)
                (set_users (without_first target (users r)) r) q) as [Hkeep _].
    rewrite Hkeep in Hne. cbn [users set_users] in Hne.
    destruct (elects_first (userId target) r q _ (host r) Hne)
      as (_ & _ & _ & Hp & Hc & _).
    split; assumption.
Qed.

Lemma removeUser_last_or_leave_witness :
  events (removeUser alice room_of_alice ∅)
    = [EmptyRoomCallback 5%nat (set_users [] room_of_alice) 0%nat] /\
  playerLeave_writes (events (removeUser bob room_of_three ∅))
    = [(socket alice, 102); (socket carol, 102)].
Proof.
  split.
  - assert (Hin : alice ∈ users room_of_alice) by (vm_compute; left).
    destruct (removeUser_last_or_leave alice room_of_alice ∅ Hin) as (_ & Hlast & _).
    destruct (Hlast eq_refl) as [_ Hcall]. rewrite (Hcall 5%nat eq_refl). reflexivity.
  - assert (Hin : bob ∈ users room_of_three) by (vm_compute; right; left).
    destruct (removeUser_last_or_leave bob room_of_three ∅ Hin) as (_ & _ & Hleave).
    assert (Hne : users (room (removeUser bob room_of_three ∅)) <> [])
      by (vm_compute; discriminate).
    destruct (Hleave Hne) as [-> _]. reflexivity.
Defined.

(** C10: [removeUser] with a user that is not a member, and
    [removeUserById] with an id that no member has, leave the room and the
    sockets as they were, invoke no callback and write nothing. *)
Theorem remove_stranger_no_effect r q :
  (forall target, target ∉ users r ->
     removeUser target r q = mkStep r q [] Normal) /\
  (forall uid, (forall u, u ∈ users r -> userId u <> uid) ->
     removeUserById uid r q = mkStep r q [] Normal).
Proof.
  split.
  - intros target Hnin. apply removeUser_stranger. exact Hnin.
  - intros uid Hnone. apply removeUserById_stranger. exact Hnone.
Qed.

Lemma remove_stranger_no_effect_witness :
  removeUser dave room_of_three ∅ = mkStep room_of_three ∅ [] Normal /\
  removeUserById 104 room_of_three ∅ = mkStep room_of_three ∅ [] Normal.
Proof.
  destruct (remove_stranger_no_effect room_of_three ∅) as [Hobj Hid]. split.
  - apply Hobj. vm_compute. intros Hin.
    repeat (apply elem_of_cons in Hin as [Heq|Hin]; [discriminate|]).
    inversion Hin.
  - apply Hid. intros u Hin. vm_compute in Hin.
    repeat (apply elem_of_cons in Hin as [->|Hin]; [discriminate|]).
    inversion Hin.
Defined.

End RoomClaims.

(** ** The user gateway *)
Section GatewayClaims.
Import User.

(** C8, as stated, fails for [User.get]: with the service known down, a
    user that is still in the cache is returned, not [null]. *)
Lemma get_while_down_counterexample :
  isAlive svc_down = false /\
  (get 42 svc_down).1.1 = Some alice /\
  (get 42 svc_down).1.1 <> None.
Proof.
  split; [reflexivity|]. split; [reflexivity|]. vm_compute. discriminate.
Qed.

(** C8, amended: whenever the user service is known down, neither
    [User.get] nor [User.getByName] contacts it; [User.getByName] returns
    [null], and [User.get] returns what a live entry of the cache holds for
    that id and [null] when there is none. *)
Theorem reads_while_down (s : Svc) :
  isAlive s = false ->
  (forall userId,
      (get userId s).1.1 = (lru_get (now s) userId (userCache s)).1 /\
      (get userId s).2 = []) /\
  (forall userName, getByName userName s = (None, [])).
Proof.
  intros Hdown. split.
  - intros uid. unfold get.
    destruct (lru_get (now s) uid (userCache s)) as [[session|] c1]; cbn.
    + done.
    + rewrite Hdown. cbn. done.
  - intros name. unfold getByName. rewrite Hdown. reflexivity.
Qed.

Lemma reads_while_down_witness :
  (get 42 svc_down).2 = [] /\
  (get 7 svc_down).1.1 = None /\
  getByName "alice" svc_down = (None, []).
Proof.
  destruct (reads_while_down svc_down eq_refl) as [Hget Hname].
  split; [apply Hget|]. split; [|apply Hname].
  destruct (Hget 7) as [-> _]. reflexivity.
Defined.

End GatewayClaims.

(** ** The user manager *)
Section ManagerClaims.
Import UserManager.

(** C9: [validateCredentials] returns the user id that the user service
    reports with status 200, returns 0 for a response with any other
    status, and on a request error returns 0 and calls [checkNow()]. *)
Theorem validateCredentials_result (username password : string) (s : User.Svc) :
  (forall uid,
      User.post_users_check s username password = User.Response 200 uid ->
      (validateCredentials username password s).1 = uid) /\
  (forall status body,
      User.post_users_check s username password = User.Response status body ->
      status <> 200 ->
      (validateCredentials username password s).1 = 0) /\
  (User.post_users_check s username password = User.Failure ->
   (validateCredentials username password s).1 = 0 /\
   User.CheckNow ∈ (validateCredentials username password s).2).
Proof.
  unfold validateCredentials. split; [|split].
  - intros uid ->. reflexivity.
  - intros status body -> Hstatus. cbn.
    destruct (Z.eqb_spec status 200); [contradiction|reflexivity].
  - intros ->. cbn. split; [reflexivity|]. set_solver.
Qed.

Lemma validateCredentials_result_witness :
  (validateCredentials "alice" "pw" svc_up).1 = 42 /\
  (validateCredentials "alice" "pw"
     (User.mkSvc 0 [] true (fun _ _ _ => User.Failure) (fun _ => User.Failure)
        (fun _ => User.Failure) (fun _ _ => User.Response 204 42))).1 = 0 /\
  (validateCredentials "mallory" "pw" svc_up).1 = 0 /\
  User.CheckNow ∈ (validateCredentials "mallory" "pw" svc_up).2.
Proof.
  split; [|split].
  - apply (proj1 (validateCredentials_result "alice" "pw" svc_up)). reflexivity.
  - apply (proj1 (proj2 (validateCredentials_result "alice" "pw" _)) 204 42).
    + reflexivity.
    + discriminate.
  - apply (proj2 (proj2 (validateCredentials_result "mallory" "pw" svc_up))).
    reflexivity.
Defined.

(** *** Host packets *)

(** C1 fails on the code: [sendUserInventoryTo] reads the inventory of the
    host, not of the target. Alice, host of room 1, asks for the inventory
    of Bob, a member of her room; the only read is of Alice's inventory, and
    the reply names Bob and carries Alice's items [1; 2], while Bob's are
    [3]. After the reply is sent the handler raises in its log call. *)
Theorem setInventory_sends_host_items :
  authorized 101 102 lobby /\
  target_in_room 101 102 lobby /\
  onHostSetUserInventory (mkHostPacket SetInventory 102) conn_of_alice lobby
    = (Threw,
       [InventorySvc (GetInventory 101);
        Send 11%nat (OutHost_setInventory 102 [1; 2])]) /\
  inventory_reads
    (onHostSetUserInventory (mkHostPacket SetInventory 102) conn_of_alice lobby).2
    = [GetInventory 101] /\
  sent (onHostSetUserInventory (mkHostPacket SetInventory 102) conn_of_alice lobby).2
    = [OutHost_setInventory 102 [1; 2]] /\
  getInventory lobby 101 = Some (mkInventory [1; 2]) /\
  getInventory lobby 102 = Some (mkInventory [3]).
Proof.
  split; [|split; [|repeat split]].
  - exists (mkSession 101 "alice" "10.0.0.1" 0 0 1),
      (mkSession 102 "bob" "10.0.0.2" 0 0 1), Room.room_of_three.
    repeat split.
  - exists (mkSession 101 "alice" "10.0.0.1" 0 0 1), Room.room_of_three, Room.bob.
    repeat split. vm_compute. right. left.
Qed.

Lemma reads_of_userSvc (evs : list User.Event) :
  inventory_reads (map UserSvc evs) = [] /\ sent (map UserSvc evs) = [].
Proof.
  induction evs as [|e evs [IH1 IH2]]; [done|]. cbn. done.
Qed.

Lemma relay_guarded_dropped requesterId targetId w :
  relay_guarded requesterId targetId w (Returned false) [Console Warn].
Proof.
  split; [intros [H|H]; contradiction H; reflexivity|]. split; intros _; done.
Qed.

(** A handler that raised before it read or sent anything, past the tests
    (a) to (c). *)
Lemma relay_guarded_raised requesterId targetId w rs ts :
  session_get w requesterId = Some rs ->
  isInRoom rs = true ->
  session_get w targetId = Some ts ->
  relay_guarded requesterId targetId w Threw [].
Proof.
  intros Hrs Hin Hts.
  split; [intros [H|H]; contradiction H; reflexivity|]. split; [intros _; done|].
  intros [H|[(s0 & H & H')|H]]; congruence.
Qed.

Ltac relay_cases w hostPacket conn :=
  destruct (session_get w (getOwner conn)) as [rs|] eqn:Hrs;
    [|apply relay_guarded_dropped];
  destruct (isInRoom rs) eqn:Hin; cbn [negb];
    [|apply relay_guarded_dropped];
  destruct (session_get w (targetUserId hostPacket)) as [ts|] eqn:Hts;
    [|apply relay_guarded_dropped];
  destruct (getSessionCurRoom rs w) as [currentRoom|] eqn:Hroom;
    [|apply (relay_guarded_raised _ _ _ rs ts); assumption].

Ltac not_refused :=
  let H := fresh in
  intros H; exfalso;
  destruct H as [H|[(s0 & H & H')|[H|(s0 & room0 & H & H' & H'')]]];
  congruence.

Ltac not_turned_away :=
  let H := fresh in
  intros H; exfalso;
  destruct H as [H|[(s0 & H & H')|H]];
  congruence.

Lemma relay_inventory w hostPacket conn :
  let r := onHostSetUserInventory hostPacket conn w in
  relay_guarded (getOwner conn) (targetUserId hostPacket) w r.1 r.2.
Proof.
  unfold onHostSetUserInventory, settings_roomName. relay_cases w hostPacket conn.
  destruct (Z.eqb_spec (Room.userId (Room.host currentRoom)) (getOwner conn))
    as [Hhost|Hhost]; cbn [negb];
    [|apply (relay_guarded_raised _ _ _ rs ts); assumption].
  split; [|split].
  - intros _. exists rs, ts, currentRoom. done.
  - not_refused.
  - not_turned_away.
Qed.

Lemma relay_buyMenu w hostPacket conn :
  let r := onHostSetUserBuyMenu hostPacket conn w in
  relay_guarded (getOwner conn) (targetUserId hostPacket) w r.1 r.2.
Proof.
  unfold onHostSetUserBuyMenu, settings_roomName. relay_cases w hostPacket conn.
  destruct (Z.eqb_spec (Room.userId (Room.host currentRoom)) (getOwner conn))
    as [Hhost|Hhost]; cbn [negb];
    [|apply (relay_guarded_raised _ _ _ rs ts); assumption].
  split; [|split].
  - intros _. exists rs, ts, currentRoom. done.
  - not_refused.
  - not_turned_away.
Qed.

Lemma relay_loadout w hostPacket conn :
  keyed w ->
  let r := onHostSetUserLoadout hostPacket conn w in
  relay_guarded (getOwner conn) (targetUserId hostPacket) w r.1 r.2.
Proof.
  intros Hkeyed. unfold onHostSetUserLoadout, settings_roomName.
  relay_cases w hostPacket conn.
  rewrite (Hkeyed _ _ Hrs).
  destruct (Z.eqb_spec (Room.userId (Room.host currentRoom)) (getOwner conn))
    as [Hhost|Hhost]; cbn [negb];
    [|apply (relay_guarded_raised _ _ _ rs ts); assumption].
  split; [|split].
  - intros _. exists rs, ts, currentRoom. done.
  - not_refused.
  - not_turned_away.
Qed.

Lemma relay_guarded_after_userSvc requesterId targetId w c
    (evs0 : list User.Event) (evs : list Event) :
  relay_guarded requesterId targetId w c evs ->
  relay_guarded requesterId targetId w c (map UserSvc evs0 ++ evs).
Proof.
  destruct (reads_of_userSvc evs0) as [Hr Hs].
  unfold relay_guarded, inventory_reads, sent in *.
  rewrite !omap_app, Hr, Hs. cbn [app]. done.
Qed.

(** C2, as stated, fails: membership of the target in the requester's room
    is not tested. Dave has a session but is in no room; when Alice, host
    of room 1, sends [Host.SetLoadout] for Dave, his loadouts are read from
    the inventory service and sent to her. *)
Lemma host_relay_member_counterexample :
  ~ target_in_room 101 104 lobby /\
  inventory_reads (onHostPacket (mkHostPacket SetLoadout 104) conn_of_alice lobby).2
    = [GetAllLoadouts 104] /\
  sent (onHostPacket (mkHostPacket SetLoadout 104) conn_of_alice lobby).2
    = [OutHost_setLoadout 104 (Some [[104; 10]; [104; 20]])].
Proof.
  split; [|repeat split].
  intros (rs & currentRoom & member & Hrs & Hroom & Hin & Hid).
  vm_compute in Hrs. injection Hrs as <-.
  vm_compute in Hroom. injection Hroom as <-.
  vm_compute in Hin.
  repeat (apply elem_of_cons in Hin as [->|Hin]; [discriminate|]).
  inversion Hin.
Qed.

Lemma onHostPacket_guarded (w : World) (hostPacket : InHostPacket)
    (connection : ExtendedSocket) :
  keyed w ->
  is_host_relay (packetType hostPacket) = true ->
  relay_guarded (getOwner connection) (targetUserId hostPacket) w
    (onHostPacket hostPacket connection w).1.1
    (onHostPacket hostPacket connection w).2.
Proof.
  intros Hkeyed Hrelay. unfold onHostPacket.
  destruct (hasOwner connection); cbn [negb]; [|apply relay_guarded_dropped].
  destruct (User.get (getOwner connection) (svc w)) as [[user s1] evs0].
  destruct user as [user|].
  2: { apply relay_guarded_after_userSvc.
       split; [intros [H|H]; contradiction H; reflexivity|]. split; intros _; done. }
  destruct (packetType hostPacket); try discriminate Hrelay.
  - pose proof (relay_inventory (set_svc s1 w) hostPacket connection) as Hr.
    destruct (onHostSetUserInventory _ _ _) as [c evs].
    apply relay_guarded_after_userSvc. exact Hr.
  - pose proof (relay_loadout (set_svc s1 w) hostPacket connection Hkeyed) as Hr.
    destruct (onHostSetUserLoadout _ _ _) as [c evs].
    apply relay_guarded_after_userSvc. exact Hr.
  - pose proof (relay_buyMenu (set_svc s1 w) hostPacket connection) as Hr.
    destruct (onHostSetUserBuyMenu _ _ _) as [c evs].
    apply relay_guarded_after_userSvc. exact Hr.
Qed.

(** C2, amended: for every incoming [Host.SetInventory], [Host.SetLoadout]
    or [Host.SetBuyMenu] packet, an inventory read or a delivery happens
    only if the requester has a session, the requester is in a room, the
    target has a session and the requester is the host of its room; if one
    of these fails, nothing is read from the inventory service and nothing
    is sent, so a non-host's packet never triggers a read; and if the
    requester has no session or is in no room, or the target has no
    session, the handler returns failure. Whether the target is a member
    of the room is not tested, and what the handler returns to a requester
    that is not the host is not part of the statement. *)
Theorem host_relay_authorization (w : World) (hostPacket : InHostPacket)
    (connection : ExtendedSocket) :
  keyed w ->
  is_host_relay (packetType hostPacket) = true ->
  let r := onHostPacket hostPacket connection w in
  (inventory_reads r.2 <> [] \/ sent r.2 <> [] ->
   authorized (getOwner connection) (targetUserId hostPacket) w) /\
  (refused (getOwner connection) (targetUserId hostPacket) w ->
   inventory_reads r.2 = [] /\ sent r.2 = []) /\
  (turned_away (getOwner connection) (targetUserId hostPacket) w ->
   r.1.1 = Returned false).
Proof.
  intros Hkeyed Hrelay. exact (onHostPacket_guarded w hostPacket connection Hkeyed Hrelay).
Qed.

Lemma lobby_keyed : keyed lobby.
Proof.
  intros uid s. unfold lobby. cbn [session_get].
  destruct (Z.eqb_spec uid 101) as [->|_]; [intros [= <-]; reflexivity|].
  destruct (Z.eqb_spec uid 102) as [->|_]; [intros [= <-]; reflexivity|].
  destruct (Z.eqb_spec uid 103) as [->|_]; [intros [= <-]; reflexivity|].
  destruct (Z.eqb_spec uid 104) as [->|_]; [intros [= <-]; reflexivity|].
  intros [=].
Qed.

(** Carol is in Alice's room but is not its host: for her [Host.SetLoadout]
    for Bob nothing is read and nothing is sent. Dave is in no room: his
    [Host.SetBuyMenu] for Bob returns [false]. *)
Lemma host_relay_authorization_witness :
  inventory_reads
    (onHostPacket (mkHostPacket SetLoadout 102) (mkSocket 13 true 103 "10.0.0.3") lobby).2
    = [] /\
  sent
    (onHostPacket (mkHostPacket SetLoadout 102) (mkSocket 13 true 103 "10.0.0.3") lobby).2
    = [] /\
  (onHostPacket (mkHostPacket SetBuyMenu 102) (mkSocket 14 true 104 "10.0.0.4") lobby).1.1
    = Returned false.
Proof.
  destruct (host_relay_authorization lobby (mkHostPacket SetLoadout 102)
              (mkSocket 13 true 103 "10.0.0.3") lobby_keyed eq_refl) as (_ & Hdrop & _).
  destruct (host_relay_authorization lobby (mkHostPacket SetBuyMenu 102)
              (mkSocket 14 true 104 "10.0.0.4") lobby_keyed eq_refl) as (_ & _ & Haway).
  assert (Hrefused : refused 103 102 lobby).
  { right. right. right.
    exists (mkSession 103 "carol" "10.0.0.3" 0 0 1), Room.room_of_three.
    split; [reflexivity|]. split; [reflexivity|]. vm_compute. discriminate. }
  destruct (Hdrop Hrefused) as [Hr Hs].
  split; [exact Hr|]. split; [exact Hs|].
  apply Haway. right. left.
  exists (mkSession 104 "dave" "10.0.0.4" 0 0 0). split; reflexivity.
Defined.

(** *** Login *)

Lemma wire_app conn (evs1 evs2 : list Event) :
  wire conn (evs1 ++ evs2) = wire conn evs1 ++ wire conn evs2.
Proof. unfold wire. apply omap_app. Qed.

Lemma wire_userSvc conn (evs : list User.Event) :
  wire conn (map UserSvc evs) = [].
Proof. induction evs as [|e evs IH]; [done|]. cbn. exact IH. Qed.

(** What is parked after [sendInventory]'s [await] finishes without
    another [await], and sends the inventory frames. *)
Lemma start_inventory_continuation (userId : Z) (conn : ExtendedSocket) (w : World) :
  exists k evs,
    start (sendInventory userId conn w)
      = ([InventorySvc (GetInventory userId); InventorySvc (GetCosmetics userId);
          InventorySvc (GetAllLoadouts userId); InventorySvc (GetBuyMenu userId)],
         Some k) /\
    start k = (evs, None) /\
    wire (uuid conn) evs = inventory_frames userId w.
Proof.
  unfold sendInventory, inventory_frames. cbn [start].
  destruct (getInventory w userId) as [inventory|];
    [|eexists _, _; split; [reflexivity|]; split; reflexivity].
  destruct (getCosmetics w userId) as [cosmetics|];
    [|eexists _, _; split; [reflexivity|]; split; reflexivity].
  destruct (getAllLoadouts w userId) as [loadouts|];
    [|eexists _, _; split; [reflexivity|]; split; reflexivity].
  destruct (getBuyMenu w userId) as [buyMenu|];
    [|eexists _, _; split; [reflexivity|]; split; reflexivity].
  eexists _, _. split; [reflexivity|]. split; [reflexivity|].
  cbn. destruct (decide (uuid conn = uuid conn)); [reflexivity|congruence].
Qed.

(** Two parked continuations that finish without waiting again: a complete
    run resumes each once, in one order or the other. *)
Lemma run_two (tr evs1 evs2 : list Event) (k1 k2 : Async) schedule l' :
  start k1 = (evs1, None) ->
  start k2 = (evs2, None) ->
  run schedule (mkLoop tr [k1; k2]) = Some l' ->
  pending l' = [] ->
  trace l' = (tr ++ evs1) ++ evs2 \/ trace l' = (tr ++ evs2) ++ evs1.
Proof.
  intros H1 H2 Hrun Hdone.
  destruct schedule as [|i schedule]; cbn in Hrun.
  { injection Hrun as <-. discriminate Hdone. }
  destruct i as [|[|i]]; cbn in Hrun; [| |discriminate].
  - unfold call in Hrun. rewrite H1 in Hrun. cbn in Hrun.
    destruct schedule as [|j schedule]; cbn in Hrun.
    { injection Hrun as <-. discriminate Hdone. }
    destruct j as [|j]; cbn in Hrun; [|discriminate].
    unfold call in Hrun. rewrite H2 in Hrun. cbn in Hrun.
    destruct schedule as [|m schedule]; cbn in Hrun; [|discriminate].
    injection Hrun as <-. left. reflexivity.
  - unfold call in Hrun. rewrite H2 in Hrun. cbn in Hrun.
    destruct schedule as [|j schedule]; cbn in Hrun.
    { injection Hrun as <-. discriminate Hdone. }
    destruct j as [|j]; cbn in Hrun; [|discriminate].
    unfold call in Hrun. rewrite H1 in Hrun. cbn in Hrun.
    destruct schedule as [|m schedule]; cbn in Hrun; [|discriminate].
    injection Hrun as <-. right. reflexivity.
Qed.

(** The event loop when a successful [onLoginPacket] returns. *)
Lemma login_returns (w : World) (loginPacket : InLoginPacket)
    (connection : ExtendedSocket) (holepunchPort : Z) (w' : World) (l : Loop) :
  onLoginPacket loginPacket connection holepunchPort w = (true, w', l) ->
  exists uid user tr k2 evs2,
    (validateCredentials (gameUsername loginPacket) (password loginPacket) (svc w)).1 = uid /\
    uid <> 0 /\
    (User.get uid (svc w)).1.1 = Some user /\
    l = mkLoop tr
          [Do (Send (uuid connection) (OutUserInfo_fullUserUpdate uid)) Finished; k2] /\
    wire (uuid connection) tr
      = [Packet (OutUserStart uid (User.userName user) (User.playerName user) holepunchPort);
         Packet OutChannelList] /\
    start k2 = (evs2, None) /\
    wire (uuid connection) evs2 = inventory_frames uid w.
Proof.
  unfold onLoginPacket, UserSession_create.
  destruct (validateCredentials _ _ (svc w)) as [uid evs0].
  destruct (Z.eqb_spec uid 0) as [->|Huid]; [intros [=]|].
  cbn [userId set_ipAddress].
  destruct (User.get uid (svc w)) as [[user s1] evs2] eqn:Hget.
  destruct user as [user|]; [|intros [=]].
  intros [= <- <-].
  destruct (start_inventory_continuation uid connection (set_svc s1 w))
    as (k2 & evsk & Hstart & Hk2 & Hwire).
  exists uid, user. eexists _, k2, evsk.
  split; [reflexivity|]. split; [exact Huid|]. split; [rewrite Hget; reflexivity|].
  split; [|split; [|split; [exact Hk2|exact Hwire]]].
  - unfold call at 2. rewrite Hstart. reflexivity.
  - unfold call, sendUserInfoTo. cbn [start trace].
    assert (Hskip : forall s rest,
               wire (uuid connection)
                 (Console Log :: SessionUpdate s :: SetOwner (uuid connection) uid :: rest)
               = wire (uuid connection) rest) by reflexivity.
    rewrite !wire_app, Hskip, !wire_userSvc. cbn.
    destruct (decide (uuid connection = uuid connection)); [reflexivity|congruence].
Qed.

(** C3, as stated, fails: a login succeeds although the inventory service
    has no cosmetics for the user, and then no inventory frame is sent at
    all, in whatever order the parked continuations resume. *)
Lemma login_without_cosmetics_counterexample :
  (onLoginPacket login_alice conn_fresh 30002 lobby_without_cosmetics).1.1 = true /\
  (wire 20 ∘ trace)
    <$> run [0; 0]%nat (onLoginPacket login_alice conn_fresh 30002 lobby_without_cosmetics).2
    = Some [Packet (OutUserStart 42 "alice" "playerAlice" 30002);
            Packet OutChannelList;
            Packet (OutUserInfo_fullUserUpdate 42)] /\
  (wire 20 ∘ trace)
    <$> run [1; 0]%nat (onLoginPacket login_alice conn_fresh 30002 lobby_without_cosmetics).2
    = Some [Packet (OutUserStart 42 "alice" "playerAlice" 30002);
            Packet OutChannelList;
            Packet (OutUserInfo_fullUserUpdate 42)] /\
  pending
    <$> run [0; 0]%nat (onLoginPacket login_alice conn_fresh 30002 lobby_without_cosmetics).2
    = Some [].
Proof. repeat split. Qed.

(** C3, amended: after a successful login the parked sends can all be
    resumed, and however they are, the connection receives [UserStart]
    first, then [UserInfo] full update and [ChannelList] once each, and,
    only when the four inventory projections are all there, the inventory
    frames as one block in the order items, the unlock buffer, cosmetics,
    loadouts, option-buy-menu; when a projection is missing no inventory
    frame is sent. Where the block stands relative to [UserInfo] and
    [ChannelList] is not part of the statement. *)
Theorem login_frames (w : World) (loginPacket : InLoginPacket)
    (connection : ExtendedSocket) (holepunchPort : Z) (w' : World) (l : Loop) :
  onLoginPacket loginPacket connection holepunchPort w = (true, w', l) ->
  (exists schedule l', run schedule l = Some l' /\ pending l' = []) /\
  (forall schedule l',
      run schedule l = Some l' -> pending l' = [] ->
      exists uid user pre post,
        (validateCredentials (gameUsername loginPacket) (password loginPacket) (svc w)).1
          = uid /\
        uid <> 0 /\
        (User.get uid (svc w)).1.1 = Some user /\
        wire (uuid connection) (trace l')
          = Packet (OutUserStart uid (User.userName user) (User.playerName user)
                      holepunchPort)
            :: pre ++ inventory_frames uid w ++ post /\
        Permutation (pre ++ post)
          [Packet (OutUserInfo_fullUserUpdate uid); Packet OutChannelList]).
Proof.
  intros Hlogin.
  destruct (login_returns _ _ _ _ _ _ Hlogin)
    as (uid & user & tr & k2 & evs2 & Hcred & Huid & Huser & -> & Htr & Hk2 & Hinv).
  split.
  - exists [0; 0]%nat. cbn. unfold call. cbn. rewrite Hk2. cbn. eexists. done.
  - intros schedule l' Hrun Hdone.
    exists uid, user.
    assert (Hdec : decide (uuid connection = uuid connection) = left eq_refl).
    { destruct (decide (uuid connection = uuid connection)) as [e|]; [|congruence].
      f_equal. apply (proof_irrel e eq_refl). }
    destruct (run_two tr [Send (uuid connection) (OutUserInfo_fullUserUpdate uid)] evs2
                (Do (Send (uuid connection) (OutUserInfo_fullUserUpdate uid)) Finished)
                k2 schedule l' eq_refl Hk2 Hrun Hdone) as [Htrace|Htrace].
    + exists [Packet OutChannelList; Packet (OutUserInfo_fullUserUpdate uid)], [].
      repeat split; try assumption.
      * rewrite Htrace, !wire_app, Htr, Hinv. cbn. rewrite Hdec.
        rewrite app_nil_r. reflexivity.
      * apply perm_swap.
    + exists [Packet OutChannelList], [Packet (OutUserInfo_fullUserUpdate uid)].
      repeat split; try assumption.
      * rewrite Htrace, !wire_app, Htr, Hinv. cbn. rewrite Hdec. reflexivity.
      * apply perm_swap.
Qed.

Lemma login_frames_witness :
  exists l',
    run [1; 0]%nat (onLoginPacket login_alice conn_fresh 30002 lobby).2 = Some l' /\
    exists pre post,
      wire 20 (trace l')
        = Packet (OutUserStart 42 "alice" "playerAlice" 30002)
          :: pre ++ inventory_frames 42 lobby ++ post /\
      Permutation (pre ++ post)
        [Packet (OutUserInfo_fullUserUpdate 42); Packet OutChannelList].
Proof.
  eexists. split; [reflexivity|].
  destruct (login_frames lobby login_alice conn_fresh 30002 _ _ eq_refl) as [_ Hall].
  destruct (Hall [1; 0]%nat _ eq_refl eq_refl)
    as (uid & user & pre & post & Hcred & _ & Huser & Hwire & Hperm).
  vm_compute in Hcred. subst uid.
  vm_compute in Huser. injection Huser as <-.
  exists pre, post. split; [exact Hwire|exact Hperm].
Defined.

(** Why the amended C3 leaves the place of [ChannelList] open:
    [sendUserInfoTo] and [sendInventory] are called without [await], so the
    synchronous [sendChannelListTo] writes before either of them resumes,
    and [ChannelList] is the second frame of every login. *)
Remark login_channel_list_is_second (w : World) (loginPacket : InLoginPacket)
    (connection : ExtendedSocket) (holepunchPort : Z) (w' : World) (l : Loop) :
  onLoginPacket loginPacket connection holepunchPort w = (true, w', l) ->
  forall schedule l',
    run schedule l = Some l' -> pending l' = [] ->
    wire (uuid connection) (trace l') !! 1%nat = Some (Packet OutChannelList).
Proof.
  intros Hlogin schedule l' Hrun Hdone.
  destruct (login_returns _ _ _ _ _ _ Hlogin)
    as (uid & user & tr & k2 & evs2 & _ & _ & _ & -> & Htr & Hk2 & _).
  destruct (run_two tr [Send (uuid connection) (OutUserInfo_fullUserUpdate uid)] evs2
              (Do (Send (uuid connection) (OutUserInfo_fullUserUpdate uid)) Finished)
              k2 schedule l' eq_refl Hk2 Hrun Hdone) as [Htrace|Htrace];
    rewrite Htrace, !wire_app, Htr; reflexivity.
Qed.

End ManagerClaims.

(** ** More about the room *)
Section RoomMore.
Import Room RoomShape.

Implicit Types (r : Room) (q : gmap nat Z) (u user target : User).

(** X1: [getFreeSlots] is never negative, [hasFreeSlots] says exactly that
    there are fewer members than [maxPlayers], and within the slot bound the
    free slots and the members add up to [maxPlayers]. *)
Theorem free_slots_count r :
  0 <= getFreeSlots r /\
  (hasFreeSlots r = true <-> Z.of_nat (length (users r)) < maxPlayers r) /\
  (slot_bound r -> getFreeSlots r + Z.of_nat (length (users r)) = maxPlayers r).
Proof.
  unfold hasFreeSlots, getFreeSlots, slot_bound.
  destruct (maxPlayers r - Z.of_nat (length (users r)) >=? 0) eqn:Hge.
  - split; [lia|]. split; [|lia]. rewrite negb_true_iff, Z.eqb_neq. lia.
  - split; [lia|]. split; [|lia]. cbn. split; [discriminate|lia].
Qed.

Lemma free_slots_count_witness :
  getFreeSlots room_of_three + 3 = 32 /\ getFreeSlots room_of_four_seats = 0.
Proof.
  split; [|reflexivity].
  apply (proj2 (proj2 (free_slots_count room_of_three))). vm_compute.
  split; discriminate.
Defined.

(** X2: [addUser] does not look at the free slots: called on a room without
    free slots it still appends, and the room exceeds [maxPlayers]. *)
Theorem addUser_when_full_breaks_bound r user :
  hasFreeSlots r = false ->
  users (addUser user r) = users r ++ [user] /\ ~ slot_bound (addUser user r).
Proof.
  intros Hfull. split; [reflexivity|].
  unfold hasFreeSlots, getFreeSlots in Hfull. unfold slot_bound. cbn.
  rewrite length_app. cbn.
  destruct (maxPlayers r - Z.of_nat (length (users r)) >=? 0) eqn:Hge.
  - apply negb_false_iff, Z.eqb_eq in Hfull. lia.
  - lia.
Qed.

Lemma addUser_when_full_breaks_bound_witness :
  ~ slot_bound (addUser (mkUser 5 105 15) room_of_four_seats).
Proof.
  apply (addUser_when_full_breaks_bound room_of_four_seats (mkUser 5 105 15)).
  reflexivity.
Defined.

(** X3: the host is the first member. The constructor makes the host the
    only member of a room with free slots; [addUser] keeps the host first;
    any removal that leaves members leaves the first of them as host. *)
Theorem host_is_first_member :
  (forall roomId h ch cb o r,
      new roomId h ch cb o = Some r ->
      users r = [h] /\ host r = h /\ host_first r /\ hasFreeSlots r = true) /\
  (forall r user, host_first r -> host_first (addUser user r)) /\
  (forall r target q,
      host_first r -> users (room (removeUser target r q)) <> [] ->
      host_first (room (removeUser target r q))) /\
  (forall r uid q,
      host_first r -> users (room (removeUserById uid r q)) <> [] ->
      host_first (room (removeUserById uid r q))).
Proof.
  split; [|split; [|split]].
  - intros roomId h ch cb [o|] r Hnew; [|discriminate]. injection Hnew as <-.
    unfold host_first, hasFreeSlots, getFreeSlots. cbn.
    destruct (Js.truthy _); done.
  - intros r user Hfirst. unfold host_first in *. cbn.
    destruct (users r) as [|h0 l]; [discriminate|exact Hfirst].
  - intros r target q Hfirst Hne.
    destruct (decide (target ∈ users r)) as [Hin|Hnin].
    + rewrite removeUser_users in Hne. rewrite removeUser_member by exact Hin.
      destruct (elects_first (userId target) r q _ (host r) Hne) as (_ & Hhd & _).
      exact Hhd.
    + rewrite removeUser_stranger by exact Hnin. exact Hfirst.
  - intros r uid q Hfirst Hne.
    destruct (List.find (fun u => bool_decide (userId u = uid)) (users r))
      as [user|] eqn:Hfind.
    + destruct (removeUserById_users uid r q) as [Hus _]. rewrite Hus in Hne.
      rewrite (removeUserById_member _ _ _ _ Hfind).
      destruct (elects_first uid r q _ (host r) Hne) as (_ & Hhd & _). exact Hhd.
    + rewrite removeUserById_stranger by (apply find_none_without; exact Hfind).
      exact Hfirst.
Qed.

Lemma host_is_first_member_witness :
  host_first room_of_alice /\
  host_first (addUser bob room_of_alice) /\
  host_first (room (removeUser alice room_of_three ∅)) /\
  host_first (room (removeUserById 102 room_of_three ∅)).
Proof.
  destruct host_is_first_member as (Hnew & Hadd & Hrem & Hid).
  assert (H1 : host_first room_of_alice).
  { apply (Hnew 1 alice 0%nat (Some 5%nat) (Some IRoomOptions.empty)). reflexivity. }
  assert (H3 : host_first room_of_three) by (apply Hadd; apply Hadd; exact H1).
  split; [exact H1|]. split; [apply Hadd; exact H1|]. split.
  - apply Hrem; [exact H3|vm_compute; discriminate].
  - apply Hid; [exact H3|vm_compute; discriminate].
Defined.

Lemma without_first_perm target (l : list User) :
  target ∈ l -> Permutation l (target :: without_first target l).
Proof.
  induction l as [|y l IH]; intros Hin; [inversion Hin|].
  cbn. destruct (decide (y = target)) as [->|Hne]; [reflexivity|].
  apply elem_of_cons in Hin as [Heq|Hin]; [congruence|].
  rewrite perm_swap. apply perm_skip, IH, Hin.
Qed.

(** X4: a removal takes out one occurrence and no more: the members before
    are the removed user and the members after, and the other members keep
    their order. For [removeUserById] the removed user is a member with that
    id. *)
Theorem removal_takes_one r q :
  (forall target, target ∈ users r ->
     Permutation (users r) (target :: users (room (removeUser target r q))) /\
     List.filter (fun u => negb (bool_decide (u = target)))
                 (users (room (removeUser target r q)))
       = List.filter (fun u => negb (bool_decide (u = target))) (users r)) /\
  (forall uid, (exists u, u ∈ users r /\ userId u = uid) ->
     exists u, u ∈ users r /\ userId u = uid /\
       Permutation (users r) (u :: users (room (removeUserById uid r q)))).
Proof.
  split.
  - intros target Hin. rewrite removeUser_users. split.
    + apply without_first_perm, Hin.
    + clear Hin. induction (users r) as [|y l IH]; [reflexivity|].
      cbn. destruct (decide (y = target)) as [->|Hne].
      * rewrite bool_decide_eq_true_2 by reflexivity. reflexivity.
      * cbn. rewrite bool_decide_eq_false_2 by exact Hne. cbn. f_equal. exact IH.
  - intros uid (u & Hin & Hid).
    destruct (List.find (fun u => bool_decide (userId u = uid)) (users r))
      as [user|] eqn:Hfind.
    2: { exfalso. exact (find_none_without _ _ Hfind u Hin Hid). }
    destruct (without_first_of_find _ _ _ Hfind) as (Hin' & Hid' & Heq).
    exists user. split; [exact Hin'|]. split; [exact Hid'|].
    destruct (removeUserById_users uid r q) as [-> _]. rewrite <- Heq.
    apply without_first_perm, Hin'.
Qed.

Lemma removal_takes_one_witness :
  Permutation [alice; bob; carol] (bob :: users (room (removeUser bob room_of_three ∅))).
Proof.
  apply (proj1 (removal_takes_one room_of_three ∅) bob). vm_compute. right. left.
Defined.

Lemma without_first_gone target (l : list User) :
  NoDup l -> target ∉ without_first target l.
Proof.
  induction 1 as [|y l Hy _ IH]; cbn; [set_solver|].
  destruct (decide (y = target)) as [->|Hne]; [exact Hy|].
  intros Hin. apply elem_of_cons in Hin as [Heq|Hin]; [congruence|]. exact (IH Hin).
Qed.

(** X5: in a room without duplicate members a user that was removed is no
    longer a member, and removing it again does nothing. *)
Theorem removeUser_twice target r q :
  NoDup (users r) -> (target ∈ users r) ->
  let st := removeUser target r q in
  (target ∉ users (room st)) /\
  removeUser target (room st) (seqs st) = mkStep (room st) (seqs st) [] Normal.
Proof.
  intros Hnodup Hin st. subst st.
  assert (Hgone : target ∉ users (room (removeUser target r q))).
  { rewrite removeUser_users. apply without_first_gone, Hnodup. }
  split; [exact Hgone|]. apply removeUser_stranger, Hgone.
Qed.

Lemma removeUser_twice_witness :
  bob ∉ users (room (removeUser bob room_of_three ∅)).
Proof.
  apply (removeUser_twice bob room_of_three ∅).
  - apply (bool_decide_unpack _). vm_compute. exact I.
  - vm_compute. right. left.
Defined.

Lemma set_users_restores r user :
  set_users (users r) (addUser user r) = r.
Proof. destruct r. reflexivity. Qed.

Lemma without_first_snoc user (l : list User) :
  user ∉ l -> without_first user (l ++ [user]) = l.
Proof.
  induction l as [|y l IH]; intros Hnin; cbn.
  - destruct (decide (user = user)); [reflexivity|congruence].
  - destruct (decide (y = user)) as [->|Hne].
    + exfalso. apply Hnin. left.
    + f_equal. apply IH. intros Hin. apply Hnin. right. exact Hin.
Qed.

(** X6: joining and leaving again gives the room back: when a user that is
    not a member is added and then removed, and the host was the first
    member (or the room was empty), the room is as it was before. *)
Theorem addUser_then_removeUser user r q :
  (user ∉ users r) ->
  users r = [] \/ host_first r ->
  room (removeUser user (addUser user r) q) = r.
Proof.
  intros Hnin Hshape.
  assert (Hin : user ∈ users (addUser user r)).
  { change (users (addUser user r)) with (users r ++ [user]).
    apply elem_of_app. right. left. }
  rewrite removeUser_member by exact Hin.
  change (users (addUser user r)) with (users r ++ [user]).
  rewrite without_first_snoc by exact Hnin.
  rewrite set_users_restores.
  destruct (users r) as [|first rest] eqn:Hus.
  - rewrite onUserRemoved_empty by exact Hus.
    destruct (emptyRoomCallback r); reflexivity.
  - destruct Hshape as [Hempty|Hfirst]; [discriminate|].
    destruct (onUserRemoved_nonempty (userId user) r q first rest Hus) as (-> & _).
    unfold host_first in Hfirst. rewrite Hus in Hfirst. injection Hfirst as ->.
    destruct r. reflexivity.
Qed.

Lemma addUser_then_removeUser_witness :
  room (removeUser dave (addUser dave room_of_three) ∅) = room_of_three.
Proof.
  apply addUser_then_removeUser.
  - apply (bool_decide_unpack _). vm_compute. exact I.
  - right. reflexivity.
Defined.

Lemma same_id_same_user (l : list User) (x y : User) :
  NoDup (map userId l) -> x ∈ l -> y ∈ l -> userId x = userId y -> x = y.
Proof.
  induction l as [|z l IH]; intros Hnodup Hx Hy Hid; [inversion Hx|].
  cbn in Hnodup. apply NoDup_cons in Hnodup as [Hz Hnodup].
  apply elem_of_cons in Hx as [->|Hx]; apply elem_of_cons in Hy as [->|Hy].
  - reflexivity.
  - exfalso. apply Hz. rewrite Hid. apply list_elem_of_fmap. exists y. done.
  - exfalso. apply Hz. rewrite <- Hid. apply list_elem_of_fmap. exists x. done.
  - apply IH; assumption.
Qed.

(** X7: when no two members share a user id, removing a member by its id
    is the same as removing the member: same room, same counters, same
    events. *)
Theorem removeUserById_is_removeUser target r q :
  NoDup (map userId (users r)) -> (target ∈ users r) ->
  removeUserById (userId target) r q = removeUser target r q.
Proof.
  intros Hnodup Hin.
  destruct (List.find (fun u => bool_decide (userId u = userId target)) (users r))
    as [user|] eqn:Hfind.
  2: { exfalso. exact (find_none_without _ _ Hfind target Hin eq_refl). }
  destruct (without_first_of_find _ _ _ Hfind) as (Hin' & Hid & Heq).
  assert (user = target) as -> by (apply (same_id_same_user (users r)); assumption).
  rewrite (removeUserById_member _ _ _ _ Hfind), removeUser_member by exact Hin.
  rewrite Heq. reflexivity.
Qed.

Lemma removeUserById_is_removeUser_witness :
  removeUserById 102 room_of_three ∅ = removeUser bob room_of_three ∅.
Proof.
  apply (removeUserById_is_removeUser bob room_of_three ∅).
  - apply (bool_decide_unpack _). vm_compute. exact I.
  - vm_compute. right. left.
Defined.

Lemma writeEach_shape (mk : Z -> OutRoomPacket) (pl : Payload) (us : list User) q :
  (forall s, payload (mk s) = pl) ->
  writes (writeEach mk us q).2 = map (fun u => (socket u, pl)) us /\
  length (writeEach mk us q).2 = length us.
Proof.
  intros Hmk. revert q. induction us as [|u us IH]; intros q; [done|].
  cbn [writeEach]. destruct (getSeq (socket u) q) as [s q1].
  specialize (IH q1). destruct (writeEach mk us q1) as [q2 evs].
  cbn in *. destruct IH as [-> ->]. rewrite Hmk. done.
Qed.

Lemma onUserRemoved_shape leaver r q first rest :
  users r = first :: rest ->
  let st := onUserRemoved leaver r q in
  writes (events st)
    = map (fun u => (socket u, HostIs first)) (users r)
      ++ map (fun u => (socket u, HasLeft leaver)) (users r) /\
  length (events st) = (2 * length (users r))%nat.
Proof.
  intros Hus. unfold onUserRemoved, findAndUpdateNewHost, updateHost, sendRemovedUser.
  rewrite Hus. rewrite bool_decide_eq_false_2 by done.
  change (users (set_host first r)) with (users r).
  change (host (set_host first r)) with first. rewrite Hus.
  pose proof (writeEach_shape (fun s => setHost s first) (HostIs first)
                (first :: rest) q (fun _ => eq_refl)) as Hs.
  destruct (writeEach (fun s => setHost s first) (first :: rest) q) as [q1 evs1].
  change (users (set_host first r)) with (users r). rewrite Hus.
  pose proof (writeEach_shape (fun s => playerLeave s leaver) (HasLeft leaver)
                (first :: rest) q1 (fun _ => eq_refl)) as Hp.
  destruct (writeEach (fun s => playerLeave s leaver) (first :: rest) q1) as [q2 evs2].
  cbv zeta. cbn [room events completion snd] in *.
  destruct Hs as [Hs1 Hs2], Hp as [Hp1 Hp2].
  unfold writes in *. rewrite omap_app, Hs1, Hp1, length_app, Hs2, Hp2.
  split; [reflexivity|]. cbn [length]. lia.
Qed.

(** X8: a removal that leaves members writes to each of them twice, first
    the [setHost] replies to all of them in member order and then the
    [playerLeave] replies in the same order, and nothing else. *)
Theorem removal_broadcast_order target r q :
  (target ∈ users r) ->
  let st := removeUser target r q in
  users (room st) <> [] ->
  writes (events st)
    = map (fun u => (socket u, HostIs (host (room st)))) (users (room st))
      ++ map (fun u => (socket u, HasLeft (userId target))) (users (room st)) /\
  length (events st) = (2 * length (users (room st)))%nat.
Proof.
  intros Hin st Hne. subst st. rewrite removeUser_users in Hne.
  rewrite removeUser_member by exact Hin.
  destruct (without_first target (users r)) as [|first rest] eqn:Hrem; [done|].
  destruct (onUserRemoved_nonempty (userId target) (set_users (first :: rest) r) q
              first rest eq_refl) as (Hroom & _).
  destruct (onUserRemoved_shape (userId target) (set_users (first :: rest) r) q
              first rest eq_refl) as [Hw Hlen].
  rewrite Hroom, Hw, Hlen. split; reflexivity.
Qed.

Lemma removal_broadcast_order_witness :
  writes (events (removeUser alice room_of_three ∅))
    = [(12%nat, HostIs bob); (13%nat, HostIs bob);
       (12%nat, HasLeft 101); (13%nat, HasLeft 101)].
Proof.
  assert (Hin : alice ∈ users room_of_three) by (vm_compute; left).
  assert (Hne : users (room (removeUser alice room_of_three ∅)) <> [])
    by (vm_compute; discriminate).
  destruct (removal_broadcast_order alice room_of_three ∅ Hin Hne) as [-> _].
  reflexivity.
Defined.

(** X9: a removal changes nothing of a room but its member list and its
    host: the id, the name, [maxPlayers], the settings, the callback and the
    parent channel stay as they were. *)
Theorem removal_keeps_settings r q :
  (forall target, exists h us,
      room (removeUser target r q) = set_host h (set_users us r)) /\
  (forall uid, exists h us,
      room (removeUserById uid r q) = set_host h (set_users us r)).
Proof.
  assert (Hleft : forall leaver us, exists h us',
             room (onUserRemoved leaver (set_users us r) q)
             = set_host h (set_users us' r)).
  { intros leaver us. destruct us as [|first rest].
    - rewrite onUserRemoved_empty by reflexivity. exists (host r), [].
      destruct (emptyRoomCallback _); reflexivity.
    - destruct (onUserRemoved_nonempty leaver (set_users (first :: rest) r) q
                  first rest eq_refl) as (-> & _).
      exists first, (first :: rest). reflexivity. }
  assert (Hsame : exists h us, r = set_host h (set_users us r)).
  { exists (host r), (users r). destruct r. reflexivity. }
  split.
  - intros target. destruct (decide (target ∈ users r)) as [Hin|Hnin].
    + rewrite removeUser_member by exact Hin. apply Hleft.
    + rewrite removeUser_stranger by exact Hnin. exact Hsame.
  - intros uid.
    destruct (List.find (fun u => bool_decide (userId u = uid)) (users r))
      as [user|] eqn:Hfind.
    + rewrite (removeUserById_member _ _ _ _ Hfind). apply Hleft.
    + rewrite removeUserById_stranger by (apply find_none_without; exact Hfind).
      exact Hsame.
Qed.

End RoomMore.

(** ** More about the user gateway *)
Section GatewayMore.
Import User.

Lemma without_key_clean (k : Z) (c : list Entry) :
  Forall (fun e => key e <> k) (without_key k c).
Proof.
  unfold without_key. induction c as [|e c IH]; cbn; [constructor|].
  destruct (Z.eqb_spec (key e) k); cbn; [exact IH|]. constructor; assumption.
Qed.

Lemma without_key_id (k : Z) (c : list Entry) :
  Forall (fun e => key e <> k) c -> without_key k c = c.
Proof.
  unfold without_key. induction 1 as [|e c He _ IH]; cbn; [reflexivity|].
  destruct (Z.eqb_spec (key e) k); [contradiction|]. cbn. f_equal. exact IH.
Qed.

Lemma find_key_some (k : Z) (c : list Entry) (e : Entry) :
  List.find (fun e => key e =? k) c = Some e -> key e = k.
Proof.
  induction c as [|y c IH]; cbn; [discriminate|].
  destruct (Z.eqb_spec (key y) k); [intros [= <-]; assumption|exact IH].
Qed.

(** A read of the entry at the front, at the time it was found live. *)
Lemma lru_get_front (t k : Z) (e : Entry) (c : list Entry) :
  key e = k -> (maxAge <? t - stamp e) = false ->
  Forall (fun e => key e <> k) c ->
  lru_get t k (e :: c) = (Some (value e), e :: c).
Proof.
  intros Hk Hlive Hclean. unfold lru_get. cbn [List.find].
  rewrite (proj2 (Z.eqb_eq _ _) Hk), Hlive.
  unfold without_key at 1. cbn [List.filter]. rewrite (proj2 (Z.eqb_eq _ _) Hk). cbn [negb].
  fold (without_key k c). rewrite without_key_id by exact Hclean. reflexivity.
Qed.

Lemma get_unfold (uid : Z) (s : Svc) :
  get uid s =
    match (lru_get (now s) uid (userCache s)).1 with
    | Some session => (Some session, set_userCache (lru_get (now s) uid (userCache s)).2 s, [])
    | None =>
        if isAlive s then
          match get_users s uid with
          | Response status body =>
              if status =? 200 then
                (Some body,
                 set_userCache
                   (lru_set (now s) (userId body) body
                      (lru_get (now s) uid (userCache s)).2) s,
                 [Http (GetUsers uid)])
              else (None, set_userCache (lru_get (now s) uid (userCache s)).2 s,
                    [Http (GetUsers uid)])
          | Failure => (None, set_userCache (lru_get (now s) uid (userCache s)).2 s,
                        [Http (GetUsers uid); ConsoleError; CheckNow])
          end
        else (None, set_userCache (lru_get (now s) uid (userCache s)).2 s, [])
    end.
Proof.
  unfold get. destruct (lru_get (now s) uid (userCache s)) as [[session|] c1];
    cbn [fst snd isAlive set_userCache get_users now]; [reflexivity|].
  destruct (isAlive s); cbn [negb]; [|reflexivity].
  destruct (get_users s uid) as [status body|]; [|reflexivity].
  destruct (status =? 200); reflexivity.
Qed.

Lemma lru_get_hit (t k : Z) (c : list Entry) (u : User) :
  (lru_get t k c).1 = Some u ->
  exists e, (lru_get t k c).2 = e :: without_key k c /\
            key e = k /\ value e = u /\ (maxAge <? t - stamp e) = false.
Proof.
  unfold lru_get. destruct (List.find _ c) as [e|] eqn:Hfind; [|discriminate].
  destruct (maxAge <? t - stamp e) eqn:Hlive; [discriminate|].
  cbn. intros [= <-]. exists e.
  split; [reflexivity|]. split; [apply (find_key_some _ _ _ Hfind)|].
  split; [reflexivity|exact Hlive].
Qed.

(** X10: the cache reads back what [User.get] returned. When [User.get]
    returns a user with the id that was asked for, asking again at once
    returns the same user from the cache, without a request, and leaves the
    gateway as it is. *)
Theorem get_again (uid : Z) (s s' : Svc) (u : User) (evs : list Event) :
  get uid s = (Some u, s', evs) ->
  userId u = uid ->
  get uid s' = (Some u, s', []).
Proof.
  intros Hget Hid.
  assert (Hfront : exists e c,
             s' = set_userCache (e :: c) s /\ key e = uid /\ value e = u /\
             (maxAge <? now s - stamp e) = false /\
             Forall (fun e => key e <> uid) c).
  { rewrite get_unfold in Hget.
    destruct (lru_get (now s) uid (userCache s)).1 as [session|] eqn:Hhit.
    - injection Hget as <- <- <-.
      destruct (lru_get_hit _ _ _ _ Hhit) as (e & Hc & Hk & Hv & Hlive).
      exists e, (without_key uid (userCache s)). rewrite Hc.
      repeat split; try assumption. apply without_key_clean.
    - destruct (isAlive s); [|discriminate].
      destruct (get_users s uid) as [status body|]; [|discriminate].
      destruct (status =? 200); [|discriminate].
      injection Hget as <- <- <-.
      exists (mkEntry (userId body) body (now s)),
        (take 99 (without_key (userId body) (lru_get (now s) uid (userCache s)).2)).
      split; [reflexivity|]. split; [exact Hid|]. split; [reflexivity|].
      split; [cbn; rewrite Z.sub_diag; reflexivity|].
      rewrite <- Hid. apply Forall_take, without_key_clean. }
  destruct Hfront as (e & c & -> & Hk & Hv & Hlive & Hclean).
  rewrite get_unfold. cbn [userCache now set_userCache].
  rewrite (lru_get_front (now s) uid e c Hk Hlive Hclean), Hv. reflexivity.
Qed.

Lemma get_again_witness :
  get 102 (get 102 UserManager.svc_up).1.2
  = ((get 102 UserManager.svc_up).1.1, (get 102 UserManager.svc_up).1.2, []).
Proof.
  apply (get_again 102 UserManager.svc_up _ _ [Http (GetUsers 102)]); reflexivity.
Defined.

Ltac in_events :=
  rewrite ?elem_of_cons, ?elem_of_nil;
  intuition (try discriminate; try congruence).

(** X11: the four calls to the user service ask for a liveness check
    exactly when their awaited request raised ([Failure]: the request could
    not be made, or the client library rejected the reply, as it does for
    an error status), and then return their failure value: [User.create]
    [false], [User.get] and [User.getByName] [null], [validateCredentials]
    0. A request that resolves asks for no check, and neither does
    [User.get] when it is served from the cache or stopped by
    [isAlive()]. *)
Theorem checkNow_exactly_on_request_error (s : Svc) :
  (forall username playername password,
      (CheckNow ∈ (create username playername password s).2
       <-> post_users s username playername password = Failure) /\
      (post_users s username playername password = Failure ->
       (create username playername password s).1 = false)) /\
  (forall uid,
      (CheckNow ∈ (get uid s).2
       <-> (lru_get (now s) uid (userCache s)).1 = None /\
           isAlive s = true /\ get_users s uid = Failure) /\
      (CheckNow ∈ (get uid s).2 -> (get uid s).1.1 = None)) /\
  (forall userName,
      (CheckNow ∈ (getByName userName s).2
       <-> isAlive s = true /\ get_users_byname s userName = Failure) /\
      (CheckNow ∈ (getByName userName s).2 -> (getByName userName s).1 = None)) /\
  (forall username password,
      (CheckNow ∈ (UserManager.validateCredentials username password s).2
       <-> post_users_check s username password = Failure) /\
      (post_users_check s username password = Failure ->
       (UserManager.validateCredentials username password s).1 = 0)).
Proof.
  split; [|split; [|split]].
  - intros username playername password. unfold create.
    destruct (post_users s username playername password) as [status body|]; cbn;
      split; try in_events; try done.
  - intros uid. rewrite get_unfold.
    destruct (lru_get (now s) uid (userCache s)).1 as [session|]; [cbn; split; in_events|].
    destruct (isAlive s); [|cbn; split; in_events].
    destruct (get_users s uid) as [status body|]; [|cbn; split; in_events].
    destruct (status =? 200); cbn; split; in_events.
  - intros userName. unfold getByName.
    destruct (isAlive s); cbn; [|split; in_events].
    destruct (get_users_byname s userName) as [status body|]; [|cbn; split; in_events].
    destruct (status =? 200); cbn; split; in_events.
  - intros username password. unfold UserManager.validateCredentials.
    destruct (post_users_check s username password) as [status body|]; cbn;
      split; try in_events; try done.
Qed.

Lemma checkNow_exactly_on_request_error_witness :
  CheckNow ∈ (getByName "bob" UserManager.svc_up).2 /\
  (UserManager.validateCredentials "mallory" "pw" UserManager.svc_up).1 = 0 /\
  ~ CheckNow ∈ (get 42 svc_down).2.
Proof.
  destruct (checkNow_exactly_on_request_error UserManager.svc_up)
    as (_ & _ & Hname & Hcheck).
  destruct (checkNow_exactly_on_request_error svc_down) as (_ & Hget & _).
  split; [|split].
  - apply (proj1 (Hname "bob")). split; reflexivity.
  - apply (proj2 (Hcheck "mallory" "pw")). reflexivity.
  - intros Hin. apply (proj1 (Hget 42)) in Hin as (Hmiss & _). discriminate Hmiss.
Defined.

(** X12: [User.get] hands out a user only from a live cache entry or from a
    response with status 200 to a request it sent while the service was
    known alive; when it returns [null] it stores nothing in the cache. *)
Theorem get_only_cached_or_fetched (uid : Z) (s : Svc) :
  (forall u, (get uid s).1.1 = Some u ->
     (lru_get (now s) uid (userCache s)).1 = Some u \/
     ((lru_get (now s) uid (userCache s)).1 = None /\
      isAlive s = true /\ get_users s uid = Response 200 u)) /\
  ((get uid s).1.1 = None ->
   userCache (get uid s).1.2 = (lru_get (now s) uid (userCache s)).2).
Proof.
  rewrite get_unfold.
  destruct (lru_get (now s) uid (userCache s)).1 as [session|]; cbn.
  { split; [intros u [= <-]; left; reflexivity|discriminate]. }
  destruct (isAlive s); [|split; [discriminate|reflexivity]].
  destruct (get_users s uid) as [status body|]; [|split; [discriminate|reflexivity]].
  destruct (Z.eqb_spec status 200) as [->|Hstatus]; cbn.
  - split; [|discriminate]. intros u [= <-]. right. done.
  - split; [discriminate|reflexivity].
Qed.

Lemma get_only_cached_or_fetched_witness :
  (lru_get (now svc_down) 42 (userCache svc_down)).1 = Some alice /\
  userCache (get 7 UserManager.svc_up).1.2 = [].
Proof.
  split.
  - destruct (proj1 (get_only_cached_or_fetched 42 svc_down) alice eq_refl)
      as [Hhit|(Hmiss & _)]; [exact Hhit|discriminate Hmiss].
  - rewrite (proj2 (get_only_cached_or_fetched 7 UserManager.svc_up) eq_refl).
    reflexivity.
Defined.

End GatewayMore.

(** ** More about the user manager *)
Section ManagerMore.
Import UserManager ManagerShape.

Lemma userSvc_quiet (conn : nat) (evs : list User.Event) :
  inventory_reads (map UserSvc evs) = [] /\
  sent (map UserSvc evs) = [] /\
  ended (map UserSvc evs) = [] /\
  games_ended (map UserSvc evs) = [] /\
  only_to conn (map UserSvc evs).
Proof.
  induction evs as [|e evs (IH1 & IH2 & IH3 & IH4 & IH5)].
  - repeat split. constructor.
  - cbn. repeat split; try assumption. constructor; [exact I|exact IH5].
Qed.

Lemma only_to_app (conn : nat) (evs1 evs2 : list Event) :
  only_to conn evs1 -> only_to conn evs2 -> only_to conn (evs1 ++ evs2).
Proof. unfold only_to. intros H1 H2. apply Forall_app. done. Qed.

Lemma reads_app (evs1 evs2 : list Event) :
  inventory_reads (evs1 ++ evs2) = inventory_reads evs1 ++ inventory_reads evs2.
Proof. apply omap_app. Qed.

Lemma sent_app (evs1 evs2 : list Event) :
  sent (evs1 ++ evs2) = sent evs1 ++ sent evs2.
Proof. apply omap_app. Qed.

Lemma ended_app (evs1 evs2 : list Event) :
  ended (evs1 ++ evs2) = ended evs1 ++ ended evs2.
Proof. apply omap_app. Qed.


(** What [sendInventory] parks sends the inventory frames to the
    connection, reads nothing more and ends nothing. *)
Lemma inventory_continuation (userId : Z) (conn : ExtendedSocket) (w : World) :
  exists k evs,
    start (sendInventory userId conn w)
      = (map InventorySvc (login_reads userId), Some k) /\
    start k = (evs, None) /\
    wire (uuid conn) evs = inventory_frames userId w /\
    inventory_reads evs = [] /\
    ended evs = [] /\
    only_to (uuid conn) evs.
Proof.
  unfold sendInventory, inventory_frames. cbn [start].
  destruct (getInventory w userId) as [inventory|];
    [|eexists _, _; repeat split; constructor].
  destruct (getCosmetics w userId) as [cosmetics|];
    [|eexists _, _; repeat split; constructor].
  destruct (getAllLoadouts w userId) as [loadouts|];
    [|eexists _, _; repeat split; constructor].
  destruct (getBuyMenu w userId) as [buyMenu|];
    [|eexists _, _; repeat split; constructor].
  eexists _, _. split; [reflexivity|]. split; [reflexivity|].
  split; [|split; [reflexivity|split; [reflexivity|repeat constructor]]].
  cbn. destruct (decide (uuid conn = uuid conn)); [reflexivity|congruence].
Qed.

(** The event loop at the return of a successful [onLoginPacket], event by
    event. *)
Lemma login_trace (w : World) (loginPacket : InLoginPacket)
    (connection : ExtendedSocket) (holepunchPort : Z) (w' : World) (l : Loop) :
  onLoginPacket loginPacket connection holepunchPort w = (true, w', l) ->
  exists uid user pre k2 evs2,
    (validateCredentials (gameUsername loginPacket) (password loginPacket) (svc w)).1 = uid /\
    l = mkLoop
          (((pre ++ [Send (uuid connection)
                       (OutUserStart uid (User.userName user) (User.playerName user)
                          holepunchPort)])
            ++ map InventorySvc (login_reads uid))
           ++ [Send (uuid connection) OutChannelList])
          [Do (Send (uuid connection) (OutUserInfo_fullUserUpdate uid)) Finished; k2] /\
    inventory_reads pre = [] /\ sent pre = [] /\ ended pre = [] /\
    only_to (uuid connection) pre /\
    start k2 = (evs2, None) /\
    inventory_reads evs2 = [] /\ ended evs2 = [] /\ only_to (uuid connection) evs2.
Proof.
  unfold onLoginPacket, UserSession_create.
  destruct (validateCredentials _ _ (svc w)) as [uid evs0].
  destruct (Z.eqb_spec uid 0) as [->|Huid]; [intros [=]|].
  cbn [userId set_ipAddress].
  destruct (User.get uid (svc w)) as [[user s1] evs2] eqn:Hget.
  destruct user as [user|]; [|intros [=]].
  intros [= <- <-].
  destruct (inventory_continuation uid connection (set_svc s1 w))
    as (k2 & evsk & Hstart & Hk2 & _ & Hreads & Hended & Honly).
  destruct (userSvc_quiet (uuid connection) evs0) as (Ha1 & Ha2 & Ha3 & _ & Ha5).
  destruct (userSvc_quiet (uuid connection) evs2) as (Hb1 & Hb2 & Hb3 & _ & Hb5).
  exists uid, user. eexists _, k2, evsk.
  split; [reflexivity|]. split.
  { unfold call at 2. rewrite Hstart. reflexivity. }
  cbn [trace].
  assert (Hskip : forall s rest,
             let evs := Console Log :: SessionUpdate s
                          :: SetOwner (uuid connection) uid :: rest in
             inventory_reads evs = inventory_reads rest /\
             sent evs = sent rest /\ ended evs = ended rest)
    by (intros; repeat split; reflexivity).
  match goal with
  | |- context [Console Log :: SessionUpdate ?s :: _ :: ?rest] =>
      destruct (Hskip s rest) as (Hs1 & Hs2 & Hs3)
  end.
  rewrite reads_app, sent_app, ended_app, Ha1, Ha2, Ha3, Hs1, Hs2, Hs3, Hb1, Hb2, Hb3.
  repeat split; try assumption.
  apply only_to_app; [exact Ha5|]. repeat (constructor; [exact I|]). exact Hb5.
Qed.

(** [onLoginPacket] returns [true] exactly when [validateCredentials]
    gives a non-zero user id and [User.get] has a user for that id. *)
Theorem login_succeeds_iff (w : World) (loginPacket : InLoginPacket)
    (connection : ExtendedSocket) (holepunchPort : Z) :
  (onLoginPacket loginPacket connection holepunchPort w).1.1 = true
  <-> (validateCredentials (gameUsername loginPacket) (password loginPacket) (svc w)).1 <> 0 /\
      is_Some (User.get
                 (validateCredentials (gameUsername loginPacket) (password loginPacket)
                    (svc w)).1
                 (svc w)).1.1.
Proof.
  unfold onLoginPacket, UserSession_create.
  destruct (validateCredentials _ _ (svc w)) as [uid evs0]. cbn [fst].
  destruct (Z.eqb_spec uid 0) as [->|Huid].
  - cbn. split; [discriminate|]. intros [H _]. contradiction.
  - cbn [userId set_ipAddress].
    destruct (User.get uid (svc w)) as [[user s1] evs2]. cbn [fst].
    destruct user as [user|]; cbn.
    + split; [intros _; split; [exact Huid|eexists; reflexivity]|reflexivity].
    + split; [discriminate|]. intros [_ [x Hx]]. discriminate.
Qed.

(** X13: a login that fails sends nothing and parks nothing: no packet and
    no buffer goes to any connection, the inventory service is not read,
    and the connection of the packet is ended, once. *)
Theorem login_refused (w : World) (loginPacket : InLoginPacket)
    (connection : ExtendedSocket) (holepunchPort : Z) :
  (onLoginPacket loginPacket connection holepunchPort w).1.1 = false ->
  let l := (onLoginPacket loginPacket connection holepunchPort w).2 in
  pending l = [] /\
  (forall conn, wire conn (trace l) = []) /\
  inventory_reads (trace l) = [] /\
  ended (trace l) = [uuid connection].
Proof.
  unfold onLoginPacket, UserSession_create.
  destruct (validateCredentials _ _ (svc w)) as [uid evs0].
  destruct (Z.eqb_spec uid 0) as [->|Huid].
  - intros _. cbn [snd pending trace].
    destruct (userSvc_quiet (uuid connection) evs0) as (Ha1 & _ & Ha3 & _).
    rewrite reads_app, ended_app, Ha1, Ha3.
    repeat split. intros conn. rewrite wire_app, wire_userSvc. reflexivity.
  - cbn [userId set_ipAddress].
    destruct (User.get uid (svc w)) as [[user s1] evs2].
    destruct user as [user|]; [discriminate|].
    intros _. cbn [snd pending trace].
    destruct (userSvc_quiet (uuid connection) evs0) as (Ha1 & _ & Ha3 & _).
    destruct (userSvc_quiet (uuid connection) evs2) as (Hb1 & _ & Hb3 & _).
    split; [reflexivity|]. split; [|split].
    + intros conn. rewrite wire_app, wire_userSvc. cbn [app].
      change (wire conn (Console Log :: ?a :: ?b :: ?rest)) with (wire conn rest).
      rewrite wire_app, wire_userSvc. reflexivity.
    + rewrite reads_app, Ha1. cbn [app].
      change (inventory_reads (Console Log :: ?a :: ?b :: ?rest))
        with (inventory_reads rest).
      rewrite reads_app, Hb1. reflexivity.
    + rewrite ended_app, Ha3. cbn [app].
      change (ended (Console Log :: ?a :: ?b :: ?rest)) with (ended rest).
      rewrite ended_app, Hb3. reflexivity.
Qed.

Lemma login_refused_witness :
  ended (trace (onLoginPacket (mkLogin "mallory" "pw") conn_fresh 30002 lobby).2)
    = [20%nat] /\
  wire 20 (trace (onLoginPacket (mkLogin "mallory" "pw") conn_fresh 30002 lobby).2) = [].
Proof.
  destruct (login_refused lobby (mkLogin "mallory" "pw") conn_fresh 30002 eq_refl)
    as (_ & Hwire & _ & Hended).
  split; [exact Hended|apply Hwire].
Defined.

(** X14: a successful login reads each of the four inventory projections
    once, for the user that logged in, before it returns; whatever is
    resumed afterwards reads nothing more, nothing is sent to another
    connection, and the connection is not ended. *)
Theorem login_reads_once (w : World) (loginPacket : InLoginPacket)
    (connection : ExtendedSocket) (holepunchPort : Z) (w' : World) (l : Loop) :
  onLoginPacket loginPacket connection holepunchPort w = (true, w', l) ->
  inventory_reads (trace l)
    = login_reads
        (validateCredentials (gameUsername loginPacket) (password loginPacket) (svc w)).1 /\
  (forall schedule l',
      run schedule l = Some l' -> pending l' = [] ->
      inventory_reads (trace l') = inventory_reads (trace l) /\
      ended (trace l') = [] /\
      only_to (uuid connection) (trace l')).
Proof.
  intros Hlogin.
  destruct (login_trace _ _ _ _ _ _ Hlogin)
    as (uid & user & pre & k2 & evs2 & -> & -> & Hp1 & Hp2 & Hp3 & Hp4
        & Hk2 & He1 & He2 & He3).
  assert (Hreads : forall u, inventory_reads (map InventorySvc (login_reads u))
                             = login_reads u) by reflexivity.
  assert (Hended : forall u, ended (map InventorySvc (login_reads u)) = [])
    by reflexivity.
  cbn [trace]. split.
  { rewrite !reads_app, Hp1, Hreads. reflexivity. }
  intros schedule l' Hrun Hdone.
  destruct (run_two _ [Send (uuid connection) (OutUserInfo_fullUserUpdate uid)] evs2
              (Do (Send (uuid connection) (OutUserInfo_fullUserUpdate uid)) Finished)
              k2 schedule l' eq_refl Hk2 Hrun Hdone) as [->| ->].
  - rewrite !reads_app, !ended_app, Hp1, Hp3, Hreads, Hended, He1, He2.
    repeat split. repeat apply only_to_app; try assumption; repeat constructor.
  - rewrite !reads_app, !ended_app, Hp1, Hp3, Hreads, Hended, He1, He2.
    repeat split. repeat apply only_to_app; try assumption; repeat constructor.
Qed.

Lemma login_reads_once_witness :
  inventory_reads (trace (onLoginPacket login_alice conn_fresh 30002 lobby).2)
    = [GetInventory 42; GetCosmetics 42; GetAllLoadouts 42; GetBuyMenu 42].
Proof.
  destruct (login_reads_once lobby login_alice conn_fresh 30002 _ _ eq_refl) as [-> _].
  reflexivity.
Defined.

(** *** Host packets *)

Lemma relay_handlers_quiet (hostPacket : InHostPacket) (conn : ExtendedSocket)
    (w : World) :
  let quiet (r : Completion * list Event) :=
    only_to (uuid conn) r.2 /\ ended r.2 = [] /\ games_ended r.2 = [] in
  quiet (onHostSetUserInventory hostPacket conn w) /\
  quiet (onHostSetUserLoadout hostPacket conn w) /\
  quiet (onHostSetUserBuyMenu hostPacket conn w).
Proof.
  cbv zeta.
  unfold onHostSetUserInventory, onHostSetUserLoadout, onHostSetUserBuyMenu,
    sendUserInventoryTo, sendUserLoadoutTo, sendUserBuyMenuTo.
  destruct (session_get w (getOwner conn)) as [rs|];
    [|repeat split; repeat constructor].
  destruct (isInRoom rs); cbn [negb]; [|repeat split; repeat constructor].
  destruct (session_get w (targetUserId hostPacket)) as [ts|];
    [|repeat split; repeat constructor].
  destruct (getSessionCurRoom rs w) as [currentRoom|];
    [|repeat split; repeat constructor].
  destruct (getInventory w (userId rs)) as [inventory|];
    destruct (Room.userId (Room.host currentRoom) =? getOwner conn);
    destruct (Room.userId (Room.host currentRoom) =? userId rs);
    cbn; repeat split; repeat constructor.
Qed.

Lemma gameEnd_quiet (conn : ExtendedSocket) (w : World) :
  only_to (uuid conn) (onHostGameEnd conn w).2 /\
  ended (onHostGameEnd conn w).2 = [] /\
  sent (onHostGameEnd conn w).2 = [] /\
  inventory_reads (onHostGameEnd conn w).2 = [].
Proof.
  unfold onHostGameEnd.
  destruct (session_get w (getOwner conn)) as [s|];
    [|repeat split; repeat constructor].
  destruct (isInRoom s); cbn [negb]; [|repeat split; repeat constructor].
  destruct (getSessionCurRoom s w); repeat split; repeat constructor.
Qed.

(** X15: whatever host packet arrives, every packet the handler sends goes
    to the connection the host packet came from, and the handler ends no
    connection. *)
Theorem host_packet_replies_to_sender (w : World) (hostPacket : InHostPacket)
    (connection : ExtendedSocket) :
  only_to (uuid connection) (onHostPacket hostPacket connection w).2 /\
  ended (onHostPacket hostPacket connection w).2 = [].
Proof.
  unfold onHostPacket.
  destruct (hasOwner connection); cbn [negb]; [|split; repeat constructor].
  destruct (User.get (getOwner connection) (svc w)) as [[user s1] evs0].
  destruct (userSvc_quiet (uuid connection) evs0) as (_ & _ & Hended & _ & Honly).
  destruct user as [user|].
  2: { cbn [snd]. rewrite ended_app, Hended. split; [|reflexivity].
       apply only_to_app; [exact Honly|repeat constructor]. }
  destruct (relay_handlers_quiet hostPacket connection (set_svc s1 w))
    as ((Hi1 & Hi2 & _) & (Hl1 & Hl2 & _) & (Hb1 & Hb2 & _)).
  destruct (gameEnd_quiet connection (set_svc s1 w)) as (Hg1 & Hg2 & _).
  destruct (packetType hostPacket).
  - destruct (onHostGameEnd _ _) as [c evs]. cbn [snd] in *.
    rewrite ended_app, Hended, Hg2. split; [apply only_to_app; assumption|reflexivity].
  - destruct (onHostSetUserInventory _ _ _) as [c evs]. cbn [snd] in *.
    rewrite ended_app, Hended, Hi2. split; [apply only_to_app; assumption|reflexivity].
  - destruct (onHostSetUserLoadout _ _ _) as [c evs]. cbn [snd] in *.
    rewrite ended_app, Hended, Hl2. split; [apply only_to_app; assumption|reflexivity].
  - destruct (onHostSetUserBuyMenu _ _ _) as [c evs]. cbn [snd] in *.
    rewrite ended_app, Hended, Hb2. split; [apply only_to_app; assumption|reflexivity].
  - cbn [snd]. rewrite ended_app, Hended. split; [|reflexivity].
    apply only_to_app; [exact Honly|repeat constructor].
Qed.



(** X17: when the session of the requester names a room that cannot be
    found, [Host.OnGameEnd] and, for a target that has a session, the three
    host relays do not return [false]: they raise, because the error message
    reads the id of the missing room. Nothing is read from the inventory
    service, nothing is sent and no game is ended. *)
Theorem host_packet_raises_without_room (w : World) (hostPacket : InHostPacket)
    (connection : ExtendedSocket) (session : UserSession) :
  hasOwner connection = true ->
  is_Some (User.get (getOwner connection) (svc w)).1.1 ->
  session_get w (getOwner connection) = Some session ->
  isInRoom session = true ->
  getSessionCurRoom session w = None ->
  packetType hostPacket = OnGameEnd \/
  (is_host_relay (packetType hostPacket) = true /\
   is_Some (session_get w (targetUserId hostPacket))) ->
  (onHostPacket hostPacket connection w).1.1 = Threw /\
  inventory_reads (onHostPacket hostPacket connection w).2 = [] /\
  sent (onHostPacket hostPacket connection w).2 = [] /\
  games_ended (onHostPacket hostPacket connection w).2 = [].
Proof.
  intros Howner Huser Hs Hin Hroom Hkind. unfold onHostPacket. rewrite Howner. cbn [negb].
  destruct (User.get (getOwner connection) (svc w)) as [[user s1] evs0].
  cbn [fst] in Huser. destruct Huser as [u ->].
  destruct (userSvc_quiet (uuid connection) evs0) as (Hq1 & Hq2 & _ & Hq4 & _).
  assert (Hgo : forall c : Completion,
            let r := (c, set_svc s1 w, map UserSvc evs0 ++ ([] : list Event)) in
            r.1.1 = c /\ inventory_reads r.2 = [] /\ sent r.2 = [] /\
            games_ended r.2 = []).
  { intros c. cbn [fst snd]. rewrite app_nil_r. repeat split; assumption. }
  destruct Hkind as [Hkind|[Hkind [ts Hts]]].
  - rewrite Hkind. unfold onHostGameEnd.
    change (session_get (set_svc s1 w)) with (session_get w). rewrite Hs, Hin. cbn [negb].
    change (getSessionCurRoom session (set_svc s1 w)) with (getSessionCurRoom session w).
    rewrite Hroom. apply Hgo.
  - destruct (packetType hostPacket); try discriminate Hkind.
    + unfold onHostSetUserInventory.
      change (session_get (set_svc s1 w)) with (session_get w). rewrite Hs, Hts, Hin.
      cbn [negb].
      change (getSessionCurRoom session (set_svc s1 w)) with (getSessionCurRoom session w).
      rewrite Hroom. apply Hgo.
    + unfold onHostSetUserLoadout.
      change (session_get (set_svc s1 w)) with (session_get w). rewrite Hs, Hts, Hin.
      cbn [negb].
      change (getSessionCurRoom session (set_svc s1 w)) with (getSessionCurRoom session w).
      rewrite Hroom. apply Hgo.
    + unfold onHostSetUserBuyMenu.
      change (session_get (set_svc s1 w)) with (session_get w). rewrite Hs, Hts, Hin.
      cbn [negb].
      change (getSessionCurRoom session (set_svc s1 w)) with (getSessionCurRoom session w).
      rewrite Hroom. apply Hgo.
Qed.

Lemma host_packet_raises_without_room_witness :
  (onHostPacket (mkHostPacket SetLoadout 102) conn_of_alice lobby_without_room).1.1 = Threw.
Proof.
  apply (host_packet_raises_without_room lobby_without_room (mkHostPacket SetLoadout 102)
           conn_of_alice (mkSession 101 "alice" "10.0.0.1" 0 0 1)).
  - reflexivity.
  - eexists. reflexivity.
  - reflexivity.
  - reflexivity.
  - reflexivity.
  - right. split; [reflexivity|]. eexists. reflexivity.
Defined.

End ManagerMore.

(** ** The option and favorite packets *)
Section WritesMore.
Import UserManager InventoryWrites.

(** X18: an option or favorite packet is honoured exactly when the
    connection has an owner, the packet type is known and the owner has a
    session; then one write is made, to the inventory of the session's user
    and of no other; when the handler returns [false] nothing is written. *)
Theorem writes_own_inventory (w : World) (conn : ExtendedSocket) :
  (forall optPacket,
      let r := onOptionPacket optPacket conn w in
      (r.1 = true <-> hasOwner conn = true /\
                      optionType optPacket = OptionSetBuyMenu /\
                      is_Some (session_get w (getOwner conn))) /\
      (r.1 = false -> inventory_writes r.2 = []) /\
      (r.1 = true ->
       exists session wr,
         session_get w (getOwner conn) = Some session /\
         inventory_writes r.2 = [wr] /\ written_user wr = userId session)) /\
  (forall favPacket,
      let r := onFavoritePacket favPacket conn w in
      (r.1 = true <-> hasOwner conn = true /\
                      (favoriteType favPacket = FavoriteSetLoadout \/
                       favoriteType favPacket = FavoriteSetCosmetics) /\
                      is_Some (session_get w (getOwner conn))) /\
      (r.1 = false -> inventory_writes r.2 = []) /\
      (r.1 = true ->
       exists session wr,
         session_get w (getOwner conn) = Some session /\
         inventory_writes r.2 = [wr] /\ written_user wr = userId session)).
Proof.
  split.
  - intros optPacket. cbv zeta. unfold onOptionPacket, onOptionSetBuyMenu.
    destruct (hasOwner conn); cbn [negb].
    2: { cbn. split; [split; [discriminate|intros [H _]; discriminate]|].
         split; [reflexivity|discriminate]. }
    destruct (optionType optPacket).
    2: { cbn. split; [split; [discriminate|intros (_ & H & _); discriminate]|].
         split; [reflexivity|discriminate]. }
    destruct (session_get w (getOwner conn)) as [session|]; cbn.
    + split; [split; [intros _; repeat split; eexists; reflexivity|reflexivity]|].
      split; [discriminate|]. intros _. eexists _, _. repeat split.
    + split; [split; [discriminate|intros (_ & _ & [x Hx]); discriminate]|].
      split; [reflexivity|discriminate].
  - intros favPacket. cbv zeta.
    unfold onFavoritePacket, onFavoriteSetLoadout, onFavoriteSetCosmetics.
    destruct (hasOwner conn); cbn [negb].
    2: { cbn. split; [split; [discriminate|intros [H _]; discriminate]|].
         split; [reflexivity|discriminate]. }
    destruct (favoriteType favPacket).
    3: { cbn. split; [split; [discriminate|intros (_ & [H|H] & _); discriminate]|].
         split; [reflexivity|discriminate]. }
    all: destruct (session_get w (getOwner conn)) as [session|]; cbn.
    all: try (split; [split; [discriminate|intros (_ & _ & [x Hx]); discriminate]|];
              split; [reflexivity|discriminate]).
    + split; [split; [intros _; split; [reflexivity|];
                      split; [left; reflexivity|eexists; reflexivity]|reflexivity]|].
      split; [discriminate|]. intros _. eexists _, _. repeat split.
    + split; [split; [intros _; split; [reflexivity|];
                      split; [right; reflexivity|eexists; reflexivity]|reflexivity]|].
      split; [discriminate|]. intros _. eexists _, _. repeat split.
Qed.

Lemma writes_own_inventory_witness :
  inventory_writes
    (onFavoritePacket (mkFavoritePacket FavoriteSetCosmetics 0 0 0 3 77)
       conn_of_alice lobby).2
  = [setCosmeticSlot 101 3 77] /\
  inventory_writes
    (onOptionPacket (mkOptionPacket OptionSetBuyMenu [[1; 2]]) conn_fresh lobby).2 = [].
Proof.
  destruct (writes_own_inventory lobby conn_of_alice) as [_ Hfav].
  destruct (writes_own_inventory lobby conn_fresh) as [Hopt _].
  split.
  - destruct (Hfav (mkFavoritePacket FavoriteSetCosmetics 0 0 0 3 77))
      as (_ & _ & Hone).
    destruct (Hone eq_refl) as (session & wr & _ & Hw & _). reflexivity.
  - destruct (Hopt (mkOptionPacket OptionSetBuyMenu [[1; 2]])) as (_ & Hnone & _).
    apply Hnone. reflexivity.
Defined.

End WritesMore.
